(** * PDF Analysis Tool (app.py): a shallow embedding and its properties

    The script is a linear pipeline: upload -> [extract_text_from_pdf] ->
    [analyze_text_with_gemini] -> display.  Python objects are embedded as
    the inductive [value]; Python strings as lists of code points; the
    script's effects (HTTP calls, sleeps, Streamlit output, the PDF handle)
    as an explicit world threaded through a state-and-exception monad.

    The libraries the script calls (PyMuPDF, requests, the json module, the
    Unicode tables behind [str.lower]) are collaborators: they are gathered
    in the record [collaborators], and the script is parametric in it.

    Layout: the Python fragment; the script, function by function; a
    concrete set of collaborators for examples; the vocabulary of the
    properties; the properties, component by component. *)

From Stdlib Require Import ZArith NArith List Bool Lia String Ascii Floats.
From Stdlib Require Import Init.Byte DecimalString.
Import ListNotations.

Set Implicit Arguments.
Set Warnings "-register-all,-abstract-large-number".
Local Open Scope list_scope.

(* ------------------------------------------------------------------ *)
(** ** Python strings *)

(** A Python [str] is a sequence of Unicode code points. *)
Definition pystr := list N.

(** An ASCII literal of the source. *)
Definition py (s : string) : pystr := map N_of_ascii (list_ascii_of_string s).

Definition QUOTE : N := 34.   (* the double-quote character the prompt wraps the text in *)
Definition NEWLINE : N := 10. (* the line feed of the prompt *)

Definition pystr_eqb (a b : pystr) : bool :=
  if list_eq_dec N.eq_dec a b then true else false.

(** [str.isspace] on one character (the code points CPython's
    [_PyUnicode_IsWhitespace] accepts). *)
Definition is_space (c : N) : bool :=
  ((9 <=? c) && (c <=? 13) || (28 <=? c) && (c <=? 32)
   || (c =? 133) || (c =? 160) || (c =? 5760)
   || (8192 <=? c) && (c <=? 8202)
   || (c =? 8232) || (c =? 8233) || (c =? 8239) || (c =? 8287)
   || (c =? 12288))%N.

Fixpoint lstrip (s : pystr) : pystr :=
  match s with
  | c :: s' => if is_space c then lstrip s' else s
  | [] => []
  end.

Definition rstrip (s : pystr) : pystr := rev (lstrip (rev s)).

(** [s.strip()] *)
Definition strip (s : pystr) : pystr := rstrip (lstrip s).

Definition is_ascii (c : N) : bool := (c <? 128)%N.

Definition ascii_lower (c : N) : N :=
  if ((65 <=? c) && (c <=? 90))%N then (c + 32)%N else c.

Fixpoint is_prefix (p s : pystr) : bool :=
  match p, s with
  | [], _ => true
  | _ :: _, [] => false
  | a :: p', b :: s' => (a =? b)%N && is_prefix p' s'
  end.

(** [p in s] for two strings: substring search. *)
Fixpoint is_substring (p s : pystr) : bool :=
  is_prefix p s ||
  match s with
  | [] => false
  | _ :: s' => is_substring p s'
  end.

(* ------------------------------------------------------------------ *)
(** ** Python objects in the image of JSON *)

(** What [json.loads] can build and [json.dumps] can take: [None], [bool],
    [int], [float], [str], [list], and [dict] with string keys (an
    association list in insertion order; lookup takes the first binding). *)
Inductive value : Type :=
| VNone
| VBool (b : bool)
| VInt (z : Z)
| VFloat (f : float)
| VStr (s : pystr)
| VList (l : list value)
| VDict (d : list (pystr * value)).

Fixpoint dict_lookup (k : pystr) (d : list (pystr * value)) : option value :=
  match d with
  | [] => None
  | (k', v) :: d' => if pystr_eqb k k' then Some v else dict_lookup k d'
  end.

(** Python truth value, as [if x:] tests it. *)
Definition truthy (v : value) : bool :=
  match v with
  | VNone => false
  | VBool b => b
  | VInt z => negb (z =? 0)%Z
  | VFloat f => negb (PrimFloat.eqb f 0%float)
  | VStr s => match s with [] => false | _ => true end
  | VList l => match l with [] => false | _ => true end
  | VDict d => match d with [] => false | _ => true end
  end.

(** [x == "k"] for a string literal: only an equal [str] compares equal. *)
Definition eq_str (k : pystr) (v : value) : bool :=
  match v with
  | VStr s => pystr_eqb k s
  | _ => false
  end.

(* ------------------------------------------------------------------ *)
(** ** Exceptions *)

Inductive exn_class : Type :=
(* requests.exceptions.RequestException and its subclasses *)
| RequestException
| ReqConnectionError
| ReqTimeout
| ReqHTTPError
| ReqJSONDecodeError   (* also a subclass of json.JSONDecodeError *)
(* builtins and json *)
| KeyError
| IndexError
| JSONDecodeError
| TypeError
| AttributeError
(* any other subclass of Exception, e.g. PyMuPDF's FileDataError *)
| OtherException (name : pystr).

Record exn : Type := mkExn { exn_cls : exn_class; exn_msg : pystr }.

(** [isinstance(e, requests.exceptions.RequestException)] *)
Definition is_RequestException (e : exn) : bool :=
  match exn_cls e with
  | RequestException | ReqConnectionError | ReqTimeout
  | ReqHTTPError | ReqJSONDecodeError => true
  | _ => false
  end.

(** [isinstance(e, (KeyError, IndexError, json.JSONDecodeError))] *)
Definition is_shape_error (e : exn) : bool :=
  match exn_cls e with
  | KeyError | IndexError | JSONDecodeError | ReqJSONDecodeError => true
  | _ => false
  end.

Inductive outcome (A : Type) : Type :=
| Returned (a : A)
| Raised (e : exn).
Arguments Raised {A} e.

(** Evaluation of an expression stops at the first exception. *)
Definition and_then {A B} (o : outcome A) (k : A -> outcome B) : outcome B :=
  match o with
  | Returned a => k a
  | Raised e => Raised e
  end.

Notation "x <-? o ;; k" := (and_then o (fun x => k))
  (at level 61, o at next level, right associativity).

(* ------------------------------------------------------------------ *)
(** ** Subscripting, membership and attribute access *)

(** ["k" in v] *)
Definition contains_str (k : pystr) (v : value) : outcome bool :=
  match v with
  | VDict d => Returned (match dict_lookup k d with Some _ => true | None => false end)
  | VList l => Returned (existsb (eq_str k) l)
  | VStr s => Returned (is_substring k s)
  | _ => Raised (mkExn TypeError (py "argument is not iterable"))
  end.

(** [v[0]] *)
Definition getitem0 (v : value) : outcome value :=
  match v with
  | VList (x :: _) => Returned x
  | VList [] => Raised (mkExn IndexError (py "list index out of range"))
  | VStr (c :: _) => Returned (VStr [c])
  | VStr [] => Raised (mkExn IndexError (py "string index out of range"))
  | VDict _ => Raised (mkExn KeyError (py "0"))
  | _ => Raised (mkExn TypeError (py "object is not subscriptable"))
  end.

(** [v["k"]] *)
Definition getitem (k : pystr) (v : value) : outcome value :=
  match v with
  | VDict d =>
      match dict_lookup k d with
      | Some x => Returned x
      | None => Raised (mkExn KeyError k)
      end
  | VList _ => Raised (mkExn TypeError (py "list indices must be integers or slices, not str"))
  | VStr _ => Raised (mkExn TypeError (py "string indices must be integers, not 'str'"))
  | _ => Raised (mkExn TypeError (py "object is not subscriptable"))
  end.

(** [v.get("k", default)]: only a [dict] has the method. *)
Definition dict_get (k : pystr) (default : value) (v : value) : outcome value :=
  match v with
  | VDict d =>
      Returned (match dict_lookup k d with Some x => x | None => default end)
  | _ => Raised (mkExn AttributeError (py "object has no attribute 'get'"))
  end.

(* ------------------------------------------------------------------ *)
(** ** The world: what the script does to its environment *)

Inductive event : Type :=
| HttpPost (url : pystr) (headers : list (pystr * pystr)) (data : pystr)
| Sleep (seconds : Z)                     (* time.sleep *)
| StError (msg : pystr)                   (* st.error *)
| StWarning (msg : pystr)                 (* st.warning *)
| StSuccess (msg : pystr)                 (* st.success *)
| StDivider                               (* st.divider *)
| StSubheader (msg : pystr)               (* st.subheader *)
| StWrite (body : value) (unsafe_allow_html : bool)   (* st.write *)
| StColumns (n : nat)                     (* st.columns *)
| StInfo (body : value)                   (* st.info *)
| StTitle (msg : pystr)                   (* st.title *)
| StMarkdown (msg : pystr)                (* st.markdown *)
| InColumn (column : nat) (inner : event). (* with cols[column]: ... *)

Record world : Type := mkWorld {
  http_calls : nat;        (* requests.post calls made so far *)
  open_docs : nat;         (* PyMuPDF documents opened and not yet closed *)
  events : list event      (* everything observable, oldest first *)
}.

Definition initial_world : world := mkWorld 0 0 [].

(** A computation: reads and updates the world, returns or raises. *)
Definition M (A : Type) : Type := world -> outcome A * world.

Definition ret {A} (a : A) : M A := fun w => (Returned a, w).

Definition raise {A} (e : exn) : M A := fun w => (Raised e, w).

Definition bind {A B} (m : M A) (k : A -> M B) : M B :=
  fun w =>
    match m w with
    | (Returned a, w') => k a w'
    | (Raised e, w') => (Raised e, w')
    end.

(** [try: m  except ... as e: h e] where [h] re-raises what no clause takes. *)
Definition try_except {A} (m : M A) (h : exn -> M A) : M A :=
  fun w =>
    match m w with
    | (Returned a, w') => (Returned a, w')
    | (Raised e, w') => h e w'
    end.

Definition lift {A} (o : outcome A) : M A := fun w => (o, w).

Definition emit (ev : event) : M unit :=
  fun w => (Returned tt, mkWorld (http_calls w) (open_docs w) (events w ++ [ev])).

Declare Scope py_scope.
Delimit Scope py_scope with py_scope.
Notation "x <- m ;; k" := (bind m (fun x => k))
  (at level 61, m at next level, right associativity) : py_scope.
Notation "m ;; k" := (bind m (fun _ => k))
  (at level 61, right associativity) : py_scope.
Local Open Scope py_scope.

(** A [for] loop whose body may [return]: the body says whether the loop
    goes on or the function returns. *)
Inductive flow (A : Type) : Type :=
| Continue
| Return (a : A).
Arguments Continue {A}.

Fixpoint for_each {I A} (items : list I) (body : I -> M (flow A)) (after : M A) : M A :=
  match items with
  | [] => after
  | i :: rest =>
      f <- body i ;;
      match f with
      | Return a => ret a
      | Continue => for_each rest body after
      end
  end.

(** [range(n)] *)
Definition range (n : nat) : list nat := seq 0 n.

(* ------------------------------------------------------------------ *)
(** ** Collaborators *)

(** What PyMuPDF does with one page: [load_page] raises, or [get_text]
    raises, or the page's text. *)
Inductive page_behaviour : Type :=
| LoadPageRaises (e : exn)
| GetTextRaises (e : exn)
| PageText (text : pystr).

(** What [fitz.open(stream=..., filetype="pdf")] does with a byte sequence:
    it raises, or yields a document with its pages. *)
Inductive open_behaviour : Type :=
| OpenRaises (e : exn)
| Opened (pages : list page_behaviour).

Record response : Type := mkResponse { status_code : Z; body : pystr }.

(** What [requests.post] does: it raises, or a response arrives. *)
Inductive post_behaviour : Type :=
| PostRaises (e : exn)
| PostReturns (r : response).

Record collaborators : Type := mkCollaborators {
  (** the API key of app.py:17, kept out of this development *)
  API_KEY : pystr;
  (** PyMuPDF on the uploaded bytes *)
  fitz_open : list byte -> open_behaviour;
  (** the network: the answer to the n-th [requests.post] (from 0) with
      the given body *)
  requests_post : nat -> pystr -> post_behaviour;
  (** [json.loads] on a [str]; [None] stands for [JSONDecodeError] *)
  json_loads : pystr -> option value;
  (** [json.dumps] *)
  json_dumps : value -> pystr;
  (** [str.lower] on a string with a character outside ASCII *)
  unicode_lower : pystr -> pystr;
  (** [str(v)] for a [v] that is not a [str], as an f-string formats it *)
  repr : value -> pystr;
  (** [str(e)] for the status line of a 4xx or 5xx response *)
  http_error_msg : response -> pystr
}.

(* ------------------------------------------------------------------ *)
(** ** The script *)

Section App.

Variable env : collaborators.

(** app.py:18 *)
Definition API_URL : pystr :=
  py "https://generativelanguage.googleapis.com/v1beta/models/gemini-2.5-flash-preview-05-20:generateContent?key="
  ++ API_KEY env.

Definition st_error (msg : pystr) : M unit := emit (StError msg).
Definition st_warning (msg : pystr) : M unit := emit (StWarning msg).
Definition st_write (v : value) : M unit := emit (StWrite v false).
Definition time_sleep (seconds : Z) : M unit := emit (Sleep seconds).

(** *** Text Extractor (app.py:22-35) *)

(** [fitz.open(stream=pdf_file.read(), filetype="pdf")] *)
Definition doc_open (stream : list byte) : M (list page_behaviour) :=
  fun w =>
    match fitz_open env stream with
    | OpenRaises e => (Raised e, w)
    | Opened pages =>
        (Returned pages, mkWorld (http_calls w) (S (open_docs w)) (events w))
    end.

(** [pdf_document.close()] *)
Definition doc_close : M unit :=
  fun w => (Returned tt, mkWorld (http_calls w) (pred (open_docs w)) (events w)).

(** [pdf_document.load_page(page_num).get_text()] *)
Definition page_get_text (p : page_behaviour) : M pystr :=
  match p with
  | LoadPageRaises e => raise e
  | GetTextRaises e => raise e
  | PageText t => ret t
  end.

(** The loop of lines 28-30: [text += page.get_text()] page after page. *)
Fixpoint read_pages (pages : list page_behaviour) (text : pystr) : M pystr :=
  match pages with
  | [] => ret text
  | p :: rest => t <- page_get_text p ;; read_pages rest (text ++ t)
  end.

(** Returns [Some text], or [None] for Python's [None].  Every exception
    class of this model is a subclass of [Exception], so the handler of
    line 33 takes them all. *)
Definition extract_text_from_pdf (pdf_file : list byte) : M (option pystr) :=
  try_except
    (pages <- doc_open pdf_file ;;
     text <- read_pages pages [] ;;
     doc_close ;;
     ret (Some text))
    (fun e =>
       st_error (py "Error reading PDF file: " ++ exn_msg e) ;;
       ret None).

(** *** Analysis Client (app.py:37-92) *)

(** [text[:15000]] *)
Definition truncated_text (text : pystr) : pystr := firstn 15000 text.

(** The f-string of line 44. *)
Definition prompt (truncated : pystr) : pystr :=
  py "Analyze the following text from a document. Provide a concise summary, extract 5-7 key topics or keywords, determine the overall sentiment (e.g., Positive, Negative, Neutral), and identify the language of the text."
  ++ [NEWLINE; NEWLINE] ++ py "Text: " ++ [QUOTE] ++ truncated ++ [QUOTE].

Definition string_field (description : string) : value :=
  VDict [(py "type", VStr (py "STRING"));
         (py "description", VStr (py description))].

Definition responseSchema : value :=
  VDict [
    (py "type", VStr (py "OBJECT"));
    (py "properties", VDict [
       (py "summary", string_field "A concise summary of the text.");
       (py "keywords", VDict [
          (py "type", VStr (py "ARRAY"));
          (py "items", VDict [(py "type", VStr (py "STRING"))]);
          (py "description", VStr (py "An array of 5 to 7 key topics or keywords."))]);
       (py "sentiment", string_field "The overall sentiment (e.g., Positive, Negative, Neutral).");
       (py "language", string_field "The detected language of the text.")]);
    (py "required", VList [VStr (py "summary"); VStr (py "keywords");
                           VStr (py "sentiment"); VStr (py "language")])].

(** The dictionary of lines 41-64. *)
Definition payload (text : pystr) : value :=
  VDict [
    (py "contents", VList [
       VDict [(py "parts", VList [
          VDict [(py "text", VStr (prompt (truncated_text text)))]])]]);
    (py "generationConfig", VDict [
       (py "responseMimeType", VStr (py "application/json"));
       (py "responseSchema", responseSchema)])].

Definition headers : list (pystr * pystr) :=
  [(py "Content-Type", py "application/json")].

(** [requests.post(API_URL, headers=headers, data=data)] *)
Definition post (url : pystr) (hdrs : list (pystr * pystr)) (data : pystr) : M response :=
  fun w =>
    let w' := mkWorld (S (http_calls w)) (open_docs w)
                      (events w ++ [HttpPost url hdrs data]) in
    match requests_post env (http_calls w) data with
    | PostRaises e => (Raised e, w')
    | PostReturns r => (Returned r, w')
    end.

(** [response.raise_for_status()]: HTTPError for a 4xx or 5xx status. *)
Definition raise_for_status (r : response) : M unit :=
  if ((400 <=? status_code r) && (status_code r <? 600))%Z
  then raise (mkExn ReqHTTPError (http_error_msg env r))
  else ret tt.

(** [response.json()]: requests raises its own JSONDecodeError, a
    RequestException, when the body is not JSON. *)
Definition response_json (r : response) : M value :=
  match json_loads env (body r) with
  | Some v => ret v
  | None => raise (mkExn ReqJSONDecodeError (py "Expecting value"))
  end.

(** [json.loads(v)] *)
Definition loads (v : value) : M value :=
  match v with
  | VStr s =>
      match json_loads env s with
      | Some r => ret r
      | None => raise (mkExn JSONDecodeError (py "Expecting value"))
      end
  | _ => raise (mkExn TypeError (py "the JSON object must be str, bytes or bytearray"))
  end.

(** [result["candidates"][0]["content"]["parts"][0]]: the subscripts are
    evaluated left to right and the first that fails raises. *)
Definition first_part (result : value) : outcome value :=
  candidates <-? getitem (py "candidates") result ;;
  candidate <-? getitem0 candidates ;;
  content <-? getitem (py "content") candidate ;;
  parts <-? getitem (py "parts") content ;;
  getitem0 parts.

(** [result["candidates"][0]["content"]["parts"][0]["text"]] *)
Definition candidate_text (result : value) : outcome value :=
  part <-? first_part result ;;
  getitem (py "text") part.

(** Lines 73-80: what is done with a decoded body. *)
Definition consume (result : value) : M (flow value) :=
  has <- lift (contains_str (py "candidates") result) ;;
  cond <- (if has then t <- lift (candidate_text result) ;; ret (truthy t)
           else ret false) ;;
  if cond
  then t <- lift (candidate_text result) ;;
       r <- loads t ;;
       ret (Return r)
  else st_error (py "The AI model returned an unexpected response. It might be due to safety filters or other issues.") ;;
       ret (Return VNone).

(** Lines 82-90: the two except clauses, first match first. *)
Definition handler (i : nat) (e : exn) : M (flow value) :=
  if is_RequestException e then
    if (i <? 2)%nat
    then time_sleep (2 ^ Z.of_nat i) ;; ret Continue
    else st_error (py "Failed to connect to the AI model after several retries: " ++ exn_msg e) ;;
         ret (Return VNone)
  else if is_shape_error e then
    st_error (py "Failed to parse the AI model's response. The format was unexpected.") ;;
    ret (Return VNone)
  else raise e.

(** One iteration of the loop of line 69. *)
Definition attempt (data : pystr) (i : nat) : M (flow value) :=
  try_except
    (response <- post API_URL headers data ;;
     raise_for_status response ;;
     result <- response_json response ;;
     consume result)
    (handler i).

Definition analyze_text_with_gemini (text : pystr) : M value :=
  for_each (range 3) (attempt (json_dumps env (payload text))) (ret VNone).

(** *** Result Presenter (app.py:118-155) *)

(** [len(v)] *)
Definition py_len (v : value) : outcome nat :=
  match v with
  | VStr s => Returned (List.length s)
  | VList l => Returned (List.length l)
  | VDict d => Returned (List.length d)
  | _ => Raised (mkExn TypeError (py "object has no len()"))
  end.

(** The items a [for] loop over [v] visits. *)
Definition py_iter (v : value) : outcome (list value) :=
  match v with
  | VList l => Returned l
  | VStr s => Returned (map (fun c => VStr [c]) s)
  | VDict d => Returned (map (fun kv => VStr (fst kv)) d)
  | _ => Raised (mkExn TypeError (py "object is not iterable"))
  end.

(** How an f-string formats a value. *)
Definition format (v : value) : pystr :=
  match v with
  | VStr s => s
  | _ => repr env v
  end.

(** [s.lower()] on a [str]: ASCII letters by the ASCII rule, anything
    else by the Unicode tables of the runtime. *)
Definition str_lower (s : pystr) : pystr :=
  if forallb is_ascii s then map ascii_lower s else unicode_lower env s.

(** [v.lower()]: only a [str] has the method. *)
Definition lower (v : value) : outcome pystr :=
  match v with
  | VStr s => Returned (str_lower s)
  | _ => Raised (mkExn AttributeError (py "object has no attribute 'lower'"))
  end.

(** Lines 133-135: [for i, keyword in enumerate(keywords): with cols[i]: st.info(keyword)] *)
Fixpoint show_keywords (i : nat) (keywords : list value) : M unit :=
  match keywords with
  | [] => ret tt
  | keyword :: rest =>
      emit (InColumn i (StInfo keyword)) ;;
      show_keywords (S i) rest
  end.

(** Lines 127-137. *)
Definition present_keywords (analysis_result : value) : M unit :=
  emit (StSubheader (128273%N :: py " Key Topics")) ;;
  keywords <- lift (dict_get (py "keywords") (VList []) analysis_result) ;;
  if truthy keywords then
    num_keywords <- lift (py_len keywords) ;;
    emit (StColumns (if (0 <? num_keywords)%nat then num_keywords else 1)) ;;
    items <- lift (py_iter keywords) ;;
    show_keywords 0 items
  else
    st_write (VStr (py "No keywords were extracted.")).

Definition colored (color : string) (sentiment : pystr) : pystr :=
  py "**<p style='color:" ++ py color ++ py ";'>" ++ sentiment ++ py "</p>**".

(** Lines 147-155. *)
Definition present_sentiment (analysis_result : value) : M unit :=
  emit (InColumn 1 (StSubheader (128515%N :: py " Sentiment"))) ;;
  sentiment <- lift (dict_get (py "sentiment") (VStr (py "N/A")) analysis_result) ;;
  l <- lift (lower sentiment) ;;
  if pystr_eqb l (py "positive") then
    emit (InColumn 1 (StWrite (VStr (colored "green" (format sentiment))) true))
  else
    l' <- lift (lower sentiment) ;;
    if pystr_eqb l' (py "negative") then
      emit (InColumn 1 (StWrite (VStr (colored "red" (format sentiment))) true))
    else
      emit (InColumn 1 (StWrite (VStr (colored "orange" (format sentiment))) true)).

(** Lines 119-155: what is shown for a truthy [analysis_result]. *)
Definition present (analysis_result : value) : M unit :=
  emit (StSuccess (py "Analysis Complete!")) ;;
  emit StDivider ;;
  emit (StSubheader (128221%N :: py " Summary")) ;;
  summary <- lift (dict_get (py "summary") (VStr (py "No summary available.")) analysis_result) ;;
  st_write summary ;;
  present_keywords analysis_result ;;
  emit StDivider ;;
  emit (StColumns 2) ;;
  emit (InColumn 0 (StSubheader ([128483; 65039]%N ++ py " Language"))) ;;
  language <- lift (dict_get (py "language") (VStr (py "N/A")) analysis_result) ;;
  emit (InColumn 0 (StWrite (VStr (py "**" ++ format language ++ py "**")) false)) ;;
  present_sentiment analysis_result.

(** Lines 117-155, "Step 3: Display results": a falsy result (the failure
    signal [None], but also an empty dictionary) displays nothing. *)
Definition display (analysis_result : value) : M unit :=
  if truthy analysis_result then present analysis_result else ret tt.

(** *** The pipeline (app.py:96-158) *)

Definition INSUFFICIENT_TEXT : pystr :=
  py "Could not extract enough text from the PDF. The document might be image-based, empty, or corrupted.".

(** Line 113: [document_text and len(document_text.strip()) > 50];
    [None] is falsy, and so is the empty string. *)
Definition enough_text (document_text : option pystr) : bool :=
  match document_text with
  | None => false
  | Some t => truthy (VStr t) && (50 <? List.length (strip t))%nat
  end.

(** One run of the script; [uploaded_file] is what [st.file_uploader]
    returned ([None] until the user uploads, else the file's bytes).
    Page configuration and the spinner are left out. *)
Definition script (uploaded_file : option (list byte)) : M unit :=
  emit (StTitle (128196%N :: py " PDF Analysis Tool")) ;;
  emit (StMarkdown (py "Upload a PDF to get an AI-powered summary, key topics, and sentiment analysis.")) ;;
  if negb (truthy (VStr (API_KEY env))) then
    st_error (py "Gemini API Key is not configured. Please add it to your Streamlit secrets.")
  else
    match uploaded_file with
    | None => ret tt
    | Some pdf_file =>
        document_text <- extract_text_from_pdf pdf_file ;;
        match document_text with
        | Some t =>
            if enough_text (Some t) then
              analysis_result <- analyze_text_with_gemini t ;;
              display analysis_result
            else st_warning INSUFFICIENT_TEXT
        | None => st_warning INSUFFICIENT_TEXT
        end
    end.

End App.

(* ------------------------------------------------------------------ *)
(** ** A concrete set of collaborators for the examples *)

Module Demo.

Definition escape (c : N) : pystr :=
  if (c =? 34)%N || (c =? 92)%N then [92%N; c]
  else if (c =? 10)%N then py "\n"
  else [c].

Section Join.

Variable A : Type.
Variable show : A -> pystr.

Fixpoint join (l : list A) : pystr :=
  match l with
  | [] => []
  | [x] => show x
  | x :: rest => show x ++ py ", " ++ join rest
  end.

End Join.

(** A JSON serializer in the default format of [json.dumps], for values
    whose strings are printable ASCII (no floats). *)
Fixpoint dumps (v : value) : pystr :=
  match v with
  | VNone => py "null"
  | VBool true => py "true"
  | VBool false => py "false"
  | VInt z => py (DecimalString.NilZero.string_of_int (Z.to_int z))
  | VFloat _ => py "0.0"
  | VStr s => QUOTE :: flat_map escape s ++ [QUOTE]
  | VList l => py "[" ++ join dumps l ++ py "]"
  | VDict d =>
      py "{" ++
      join (fun kv : pystr * value =>
              QUOTE :: flat_map escape (fst kv) ++ QUOTE :: py ": " ++
              (let (_, x) := kv in dumps x)) d
      ++ py "}"
  end.

(** The envelope of the API: [{candidates: [{content: {parts: [{text: t}]}}]}] *)
Definition envelope (t : value) : value :=
  VDict [(py "candidates", VList [
     VDict [(py "content", VDict [
        (py "parts", VList [VDict [(py "text", t)]])])]])].

Definition analysis : value :=
  VDict [(py "summary", VStr (py "A short report."));
         (py "keywords", VList [VStr (py "alpha"); VStr (py "beta")]);
         (py "sentiment", VStr (py "Positive"));
         (py "language", VStr (py "English"))].

Definition reply (inner : value) : value := envelope (VStr (dumps inner)).

(** The JSON texts the demo parser knows; any other text is a parse error. *)
Definition known : list value :=
  [ analysis; reply analysis;
    VNone;
    VDict []; reply (VDict []);
    VDict [(py "candidates", VList [])];
    envelope (VStr []);
    VDict [(py "candidates", VList [VDict [(py "content", VDict [(py "parts", VList [VDict []])])]])];
    envelope (VStr (py "not json"));
    VDict [(py "candidates", VNone)] ].

Definition loads (s : pystr) : option value :=
  find (fun v => pystr_eqb (dumps v) s) known.

Definition ok (v : value) : post_behaviour :=
  PostReturns (mkResponse 200 (dumps v)).

Definition status (code : Z) (v : value) : post_behaviour :=
  PostReturns (mkResponse code (dumps v)).

Definition refused : post_behaviour :=
  PostRaises (mkExn ReqConnectionError (py "connection refused")).

Definition timed_out : post_behaviour :=
  PostRaises (mkExn ReqTimeout (py "read timed out")).

Definition unavailable : post_behaviour :=
  PostReturns (mkResponse 503 (py "Service Unavailable")).

(** The network as a script: the n-th call gets the n-th entry, and the
    connection is refused once the script is exhausted. *)
Definition env (pdf : open_behaviour) (net : list post_behaviour) : collaborators :=
  {| API_KEY := py "test-key";
     fitz_open := fun _ => pdf;
     requests_post := fun n _ => nth n net refused;
     json_loads := loads;
     json_dumps := dumps;
     unicode_lower := fun s => s;
     repr := dumps;
     http_error_msg := fun r => py "HTTP error" |}.

Definition corrupt : exn := mkExn (OtherException (py "FileDataError")) (py "Failed to open stream").

Definition long_page : page_behaviour :=
  PageText (py "This page holds a sentence that is comfortably longer than fifty characters.").

End Demo.

(* ------------------------------------------------------------------ *)
(** ** The vocabulary of the properties

    Nothing below is part of the script: these definitions name what the
    properties speak about (messages, traces, the shapes of a run). *)

Section Vocabulary.

Variable env : collaborators.

(** *** The extractor *)

(** The exception a page raises, if it raises. *)
Definition page_error (p : page_behaviour) : option exn :=
  match p with
  | LoadPageRaises e => Some e
  | GetTextRaises e => Some e
  | PageText _ => None
  end.

(** The first exception met when the pages are read in order. *)
Fixpoint first_page_error (pages : list page_behaviour) : option exn :=
  match pages with
  | [] => None
  | p :: rest =>
      match page_error p with
      | Some e => Some e
      | None => first_page_error rest
      end
  end.

(** The page texts, concatenated in page order. *)
Fixpoint pages_text (pages : list page_behaviour) : pystr :=
  match pages with
  | [] => []
  | PageText t :: rest => t ++ pages_text rest
  | _ :: rest => pages_text rest
  end.

Definition reading_error (e : exn) : event :=
  StError (py "Error reading PDF file: " ++ exn_msg e).

(** *** The client: messages, worlds, failures *)

Definition UNEXPECTED_RESPONSE : pystr :=
  py "The AI model returned an unexpected response. It might be due to safety filters or other issues.".

Definition PARSE_FAILURE : pystr :=
  py "Failed to parse the AI model's response. The format was unexpected.".

Definition gave_up (e : exn) : event :=
  StError (py "Failed to connect to the AI model after several retries: " ++ exn_msg e).

(** The world after one more event. *)
Definition said (ev : event) (w : world) : world :=
  mkWorld (http_calls w) (open_docs w) (events w ++ [ev]).

(** The request every attempt sends. *)
Definition request (data : pystr) : event := HttpPost (API_URL env) headers data.

(** The world after one more [requests.post]. *)
Definition posted (data : pystr) (w : world) : world :=
  mkWorld (S (http_calls w)) (open_docs w) (events w ++ [request data]).

Definition error_status (r : response) : bool :=
  ((400 <=? status_code r) && (status_code r <? 600))%Z.

(** The RequestException a transport-level failure raises: the exception
    of [requests.post] itself (connection error, timeout, ...), or the
    HTTPError of [raise_for_status] on a 4xx or 5xx status. *)
Definition transport_error (b : post_behaviour) : option exn :=
  match b with
  | PostRaises e => if is_RequestException e then Some e else None
  | PostReturns r =>
      if error_status r then Some (mkExn ReqHTTPError (http_error_msg env r))
      else None
  end.

(** The RequestException lines 71-73 raise, if any: a transport-level
    failure, or a body that [response.json()] cannot decode. *)
Definition request_error (b : post_behaviour) : option exn :=
  match b with
  | PostRaises e => if is_RequestException e then Some e else None
  | PostReturns r =>
      if error_status r then Some (mkExn ReqHTTPError (http_error_msg env r))
      else match json_loads env (body r) with
           | None => Some (mkExn ReqJSONDecodeError (py "Expecting value"))
           | Some _ => None
           end
  end.

(** The five ways one attempt can end.  Only the first asks for another
    iteration, and only it sleeps. *)
Inductive attempt_ends (data : pystr) (i : nat) (w : world)
  : outcome (flow value) * world -> Prop :=
| ends_retry (e : exn) :
    request_error (requests_post env (http_calls w) data) = Some e ->
    i < 2 ->
    attempt_ends data i w
      (Returned Continue, said (Sleep (2 ^ Z.of_nat i)) (posted data w))
| ends_gave_up (e : exn) :
    request_error (requests_post env (http_calls w) data) = Some e ->
    2 <= i ->
    attempt_ends data i w
      (Returned (Return VNone), said (gave_up e) (posted data w))
| ends_result (v : value) :
    request_error (requests_post env (http_calls w) data) = None ->
    attempt_ends data i w (Returned (Return v), posted data w)
| ends_rejected (msg : pystr) :
    request_error (requests_post env (http_calls w) data) = None ->
    attempt_ends data i w
      (Returned (Return VNone), said (StError msg) (posted data w))
| ends_raised (e : exn) :
    request_error (requests_post env (http_calls w) data) = None ->
    is_RequestException e = false ->
    attempt_ends data i w (Raised e, posted data w).

(** What the last attempt of a run adds after its request: nothing, or
    one [st.error]. *)
Definition quiet (tail : list event) : Prop :=
  tail = [] \/ exists msg, tail = [StError msg].

(** The three shapes of a run: it ends in the first, second or third
    attempt, and it reaches an attempt only through RequestExceptions in
    the attempts before. *)
Inductive run_ends (text : pystr) (w : world) : outcome value * world -> Prop :=
| run_first (o : outcome value) (tail : list event) :
    quiet tail ->
    let data := json_dumps env (payload text) in
    request_error (requests_post env (http_calls w) data) = None ->
    run_ends text w
      (o, mkWorld (1 + http_calls w) (open_docs w)
                  (events w ++ [request data] ++ tail))
| run_second (o : outcome value) (tail : list event) (e0 : exn) :
    quiet tail ->
    let data := json_dumps env (payload text) in
    request_error (requests_post env (http_calls w) data) = Some e0 ->
    request_error (requests_post env (1 + http_calls w) data) = None ->
    run_ends text w
      (o, mkWorld (2 + http_calls w) (open_docs w)
                  (events w ++ [request data; Sleep 1; request data] ++ tail))
| run_third (o : outcome value) (tail : list event) (e0 e1 : exn) :
    quiet tail ->
    let data := json_dumps env (payload text) in
    request_error (requests_post env (http_calls w) data) = Some e0 ->
    request_error (requests_post env (1 + http_calls w) data) = Some e1 ->
    run_ends text w
      (o, mkWorld (3 + http_calls w) (open_docs w)
                  (events w ++ [request data; Sleep 1; request data; Sleep 2; request data]
                            ++ tail)).

Definition success_status (r : response) : Prop :=
  (200 <= status_code r < 300)%Z.

(** A response the client accepts, and the value it decodes to: success
    status, a body that decodes to an envelope with a candidate list, and
    in the first candidate's first part a non-empty text that is JSON. *)
Definition answers (r : response) (v : value) : Prop :=
  success_status r /\
  exists result t,
    json_loads env (body r) = Some result /\
    contains_str (py "candidates") result = Returned true /\
    candidate_text result = Returned (VStr t) /\
    t <> [] /\
    json_loads env t = Some v.

(** The claim's reading of a transport-level failure: an exception of
    [requests.post], or any status outside 2xx. *)
Definition failure_as_stated (b : post_behaviour) : bool :=
  match b with
  | PostRaises e => is_RequestException e
  | PostReturns r => negb ((200 <=? status_code r) && (status_code r <? 300))%Z
  end.

(** Content defects of a decoded body whose containers are objects and
    lists: it has no "candidates" in it (for an object: no such key), or
    an empty candidate list; the first candidate has no content, the
    content no parts or an empty list of parts; the first part has no
    text, or a null or empty one; the text is not JSON. *)
Inductive shape_defect : value -> Prop :=
| missing_candidates (result : value) :
    contains_str (py "candidates") result = Returned false ->
    shape_defect result
| empty_candidates (d : list (pystr * value)) :
    dict_lookup (py "candidates") d = Some (VList []) ->
    shape_defect (VDict d)
| missing_text (d part : list (pystr * value)) :
    first_part (VDict d) = Returned (VDict part) ->
    dict_lookup (py "text") part = None ->
    shape_defect (VDict d)
| missing_content (d candidate : list (pystr * value)) (others : list value) :
    dict_lookup (py "candidates") d = Some (VList (VDict candidate :: others)) ->
    dict_lookup (py "content") candidate = None ->
    shape_defect (VDict d)
| missing_parts (d candidate content : list (pystr * value)) (others : list value) :
    dict_lookup (py "candidates") d = Some (VList (VDict candidate :: others)) ->
    dict_lookup (py "content") candidate = Some (VDict content) ->
    dict_lookup (py "parts") content = None ->
    shape_defect (VDict d)
| empty_parts (d candidate content : list (pystr * value)) (others : list value) :
    dict_lookup (py "candidates") d = Some (VList (VDict candidate :: others)) ->
    dict_lookup (py "content") candidate = Some (VDict content) ->
    dict_lookup (py "parts") content = Some (VList []) ->
    shape_defect (VDict d)
| empty_text (d part : list (pystr * value)) (t : value) :
    first_part (VDict d) = Returned (VDict part) ->
    dict_lookup (py "text") part = Some t ->
    t = VNone \/ t = VStr [] ->
    shape_defect (VDict d)
| inner_parse_error (d : list (pystr * value)) (t : pystr) :
    candidate_text (VDict d) = Returned (VStr t) ->
    t <> [] ->
    json_loads env t = None ->
    shape_defect (VDict d).

(** *** The payload *)

(** [payload["contents"][0]["parts"][0]["text"]]: the prompt a payload carries. *)
Definition payload_prompt (p : value) : outcome value :=
  contents <-? getitem (py "contents") p ;;
  content <-? getitem0 contents ;;
  parts <-? getitem (py "parts") content ;;
  part <-? getitem0 parts ;;
  getitem (py "text") part.

(** [payload["generationConfig"]["responseSchema"]] *)
Definition payload_schema (p : value) : outcome value :=
  config <-? getitem (py "generationConfig") p ;;
  getitem (py "responseSchema") config.

(** What precedes the document text in the prompt. *)
Definition PROMPT_HEAD : pystr :=
  py "Analyze the following text from a document. Provide a concise summary, extract 5-7 key topics or keywords, determine the overall sentiment (e.g., Positive, Negative, Neutral), and identify the language of the text."
  ++ [NEWLINE; NEWLINE] ++ py "Text: " ++ [QUOTE].

(** An event that is no request, or a request with this body. *)
Definition carries (data : pystr) (ev : event) : Prop :=
  match ev with
  | HttpPost _ _ d => d = data
  | _ => True
  end.

(** *** The pipeline and the presenter *)

(** The world after some more events. *)
Definition extend (evs : list event) (w : world) : world :=
  mkWorld (http_calls w) (open_docs w) (events w ++ evs).

Definition is_request (ev : event) : bool :=
  match ev with
  | HttpPost _ _ _ => true
  | _ => false
  end.

Definition TITLE : event := StTitle (128196%N :: py " PDF Analysis Tool").

Definition INTRO : event :=
  StMarkdown (py "Upload a PDF to get an AI-powered summary, key topics, and sentiment analysis.").

(** What the extractor hands to the pipeline: the text, or [None]. *)
Definition extracted (pdf_file : list byte) : option pystr :=
  match fitz_open env pdf_file with
  | OpenRaises _ => None
  | Opened pages =>
      match first_page_error pages with
      | Some _ => None
      | None => Some (pages_text pages)
      end
  end.

Definition NO_KEYWORDS : event :=
  StWrite (VStr (py "No keywords were extracted.")) false.

Definition KEY_TOPICS : event := StSubheader (128273%N :: py " Key Topics").

(** One highlighted item per keyword, each in the column of its index. *)
Fixpoint keyword_items (i : nat) (keywords : list value) : list event :=
  match keywords with
  | [] => []
  | keyword :: rest => InColumn i (StInfo keyword) :: keyword_items (S i) rest
  end.

(** The colour cue of a sentiment, as a function of its lower-cased form. *)
Definition cue_of_lowered (lowered : pystr) : string :=
  if pystr_eqb lowered (py "positive") then "green"
  else if pystr_eqb lowered (py "negative") then "red"
  else "orange".

(** Equality up to the case of ASCII letters. *)
Definition same_up_to_case (s t : pystr) : Prop :=
  Forall2 (fun a b => ascii_lower a = ascii_lower b) s t.

Definition is_str (v : value) : bool :=
  match v with
  | VStr _ => true
  | _ => false
  end.

Definition is_str_list (v : value) : bool :=
  match v with
  | VList l => forallb is_str l
  | _ => false
  end.

(** A field is absent, or has the type the schema gives it. *)
Definition field_ok (check : value -> bool) (k : pystr) (d : list (pystr * value)) : bool :=
  match dict_lookup k d with
  | None => true
  | Some v => check v
  end.

(** A well-formed analysis result: a JSON object whose fields, where
    present, are typed as the response schema says. *)
Definition well_formed (d : list (pystr * value)) : Prop :=
  field_ok is_str (py "summary") d = true /\
  field_ok is_str_list (py "keywords") d = true /\
  field_ok is_str (py "sentiment") d = true /\
  field_ok is_str (py "language") d = true.

(** The sentiment display of lines 150-155 for a string. *)
Definition sentiment_cue (s : pystr) : event :=
  InColumn 1 (StWrite (VStr (colored (cue_of_lowered (str_lower env s)) s)) true).

Definition SENTIMENT : event := InColumn 1 (StSubheader (128515%N :: py " Sentiment")).

(** What lines 127-137 display for a well-typed [keywords] field. *)
Definition keywords_block (d : list (pystr * value)) : list event :=
  KEY_TOPICS ::
  match dict_lookup (py "keywords") d with
  | Some (VList (k :: ks)) =>
      StColumns (List.length (k :: ks)) :: keyword_items 0 (k :: ks)
  | _ => [NO_KEYWORDS]
  end.

(** What precedes the keywords (lines 119-124). *)
Definition summary_block (d : list (pystr * value)) : list event :=
  [StSuccess (py "Analysis Complete!"); StDivider;
   StSubheader (128221%N :: py " Summary");
   StWrite (match dict_lookup (py "summary") d with
            | Some v => v
            | None => VStr (py "No summary available.")
            end) false].

Definition sentiment_of (d : list (pystr * value)) : pystr :=
  match dict_lookup (py "sentiment") d with
  | Some (VStr s) => s
  | _ => py "N/A"
  end.

(** What follows the keywords (lines 139-155). *)
Definition details_block (d : list (pystr * value)) : list event :=
  [StDivider; StColumns 2;
   InColumn 0 (StSubheader ([128483; 65039]%N ++ py " Language"));
   InColumn 0 (StWrite (VStr (py "**" ++
                              format env (match dict_lookup (py "language") d with
                                          | Some v => v
                                          | None => VStr (py "N/A")
                                          end) ++ py "**")) false);
   SENTIMENT; sentiment_cue (sentiment_of d)].

End Vocabulary.

(** *** A claim as it is stated *)

(** C1 as stated: such a failure on attempt 0 is followed by a sleep of 1
    and a second attempt. *)
Definition retry_policy_as_stated : Prop :=
  forall (env : collaborators) (text : pystr) (w : world),
    let data := json_dumps env (payload text) in
    failure_as_stated (requests_post env (http_calls w) data) = true ->
    exists rest,
      events (snd (analyze_text_with_gemini env text w))
      = events w ++ [request env data; Sleep 1; request env data] ++ rest.

(** *** The colour cues, as the page shows them *)

(** The opening tags of the three cues, as literals. *)
Definition GREEN : pystr := py "**<p style='color:green;'>".
Definition RED : pystr := py "**<p style='color:red;'>".
Definition ORANGE : pystr := py "**<p style='color:orange;'>".

(** The sentiment column of a run that returns after showing, under its
    heading, the text [s] between an opening tag and the closing one,
    with HTML allowed. *)
Definition shown_in (opening s : pystr) (w : world) : outcome unit * world :=
  (Returned tt,
   mkWorld (http_calls w) (open_docs w)
           (events w ++
            [InColumn 1 (StSubheader (128515%N :: py " Sentiment"));
             InColumn 1 (StWrite (VStr (opening ++ s ++ py "</p>**")) true)])).

(** The sentiment the display reads from an object: the field when it is
    a string, "N/A" when there is no such field. *)
Definition reads_sentiment (d : list (pystr * value)) (s : pystr) : Prop :=
  match dict_lookup (py "sentiment") d with
  | Some v => v = VStr s
  | None => s = py "N/A"
  end.

(** *** Traces and computations of the further properties *)

(** The requests of a run that ends in its k-th attempt, with the sleeps
    between them. *)
Definition attempts_trace (req : event) (k : nat) : list event :=
  match k with
  | 0 => []
  | 1 => [req]
  | 2 => [req; Sleep 1; req]
  | _ => [req; Sleep 1; req; Sleep 2; req]
  end.

(** Events that are no HTTP request. *)
Definition no_request (evs : list event) : bool :=
  forallb (fun ev => negb (is_request ev)) evs.

(** A computation that leaves the network and the PDF handles alone: all
    it does, whether it returns or raises, is add events that are no
    request. *)
Definition offline {A} (m : M A) : Prop :=
  forall w, exists evs, snd (m w) = extend evs w /\ no_request evs = true.

(** What the display shows before it reads the first field. *)
Definition ANNOUNCED : list event :=
  [StSuccess (py "Analysis Complete!"); StDivider;
   StSubheader (128221%N :: py " Summary")].

(* ------------------------------------------------------------------ *)
(** ** Python strings: equality *)

Lemma pystr_eqb_eq (a b : pystr) : pystr_eqb a b = true <-> a = b.
Proof.
  unfold pystr_eqb. destruct (list_eq_dec N.eq_dec a b); split; congruence.
Qed.

Lemma pystr_eqb_refl (a : pystr) : pystr_eqb a a = true.
Proof. now apply pystr_eqb_eq. Qed.

(* ------------------------------------------------------------------ *)
(** ** Properties of the Text Extractor *)

Section ExtractorFacts.

Variable env : collaborators.

Lemma read_pages_spec (pages : list page_behaviour) :
  forall text w,
    read_pages pages text w =
    match first_page_error pages with
    | Some e => (Raised e, w)
    | None => (Returned (text ++ pages_text pages), w)
    end.
Proof.
  induction pages as [|p rest IH]; intros text w; simpl.
  - now rewrite app_nil_r.
  - destruct p as [e|e|t]; simpl; try reflexivity.
    unfold bind; simpl. rewrite IH.
    destruct (first_page_error rest); [reflexivity|].
    now rewrite app_assoc.
Qed.

(** The extractor, case by case on what PyMuPDF does with the bytes. *)
Lemma extract_text_from_pdf_spec (pdf_file : list byte) (w : world) :
  extract_text_from_pdf env pdf_file w =
  match fitz_open env pdf_file with
  | OpenRaises e =>
      (Returned None,
       mkWorld (http_calls w) (open_docs w) (events w ++ [reading_error e]))
  | Opened pages =>
      match first_page_error pages with
      | Some e =>
          (Returned None,
           mkWorld (http_calls w) (S (open_docs w)) (events w ++ [reading_error e]))
      | None =>
          (Returned (Some (pages_text pages)),
           mkWorld (http_calls w) (open_docs w) (events w))
      end
  end.
Proof.
  unfold extract_text_from_pdf, try_except, bind, doc_open.
  destruct (fitz_open env pdf_file) as [e|pages]; [reflexivity|].
  rewrite read_pages_spec.
  destruct (first_page_error pages); reflexivity.
Qed.

(** The extractor never touches the network. *)
Lemma extract_text_from_pdf_no_network (pdf_file : list byte) (w : world) :
  http_calls (snd (extract_text_from_pdf env pdf_file w)) = http_calls w.
Proof.
  rewrite extract_text_from_pdf_spec.
  destruct (fitz_open env pdf_file) as [e|pages]; [reflexivity|].
  destruct (first_page_error pages); reflexivity.
Qed.

(** C5. Whatever exception PyMuPDF raises on the uploaded bytes, when the
    document is opened (bytes that are not a PDF) or when a page is loaded
    or rendered, the extractor returns [None] after one [st.error] that
    carries the exception's message; and on no input at all does the
    extractor raise. *)
Theorem extract_failure_is_signalled (pdf_file : list byte) (w : world) :
  (forall e,
      fitz_open env pdf_file = OpenRaises e ->
      fst (extract_text_from_pdf env pdf_file w) = Returned None /\
      events (snd (extract_text_from_pdf env pdf_file w))
      = events w ++ [StError (py "Error reading PDF file: " ++ exn_msg e)])
  /\
  (forall pages e,
      fitz_open env pdf_file = Opened pages ->
      first_page_error pages = Some e ->
      fst (extract_text_from_pdf env pdf_file w) = Returned None /\
      events (snd (extract_text_from_pdf env pdf_file w))
      = events w ++ [StError (py "Error reading PDF file: " ++ exn_msg e)])
  /\
  (forall e, fst (extract_text_from_pdf env pdf_file w) <> Raised e).
Proof.
  rewrite extract_text_from_pdf_spec.
  split; [|split].
  - intros e Ho. rewrite Ho. now split.
  - intros pages e Ho He. rewrite Ho, He. now split.
  - intro e.
    destruct (fitz_open env pdf_file) as [e'|pages]; [discriminate|].
    destruct (first_page_error pages); discriminate.
Qed.

(** On the success path the document opened is closed again. *)
Lemma extract_success_closes (pdf_file : list byte) (w : world) (text : pystr) :
  fst (extract_text_from_pdf env pdf_file w) = Returned (Some text) ->
  open_docs (snd (extract_text_from_pdf env pdf_file w)) = open_docs w.
Proof.
  rewrite extract_text_from_pdf_spec.
  destruct (fitz_open env pdf_file) as [e|pages]; [discriminate|].
  destruct (first_page_error pages); [discriminate|reflexivity].
Qed.

(** When a page raises after the document was opened, the handler of
    line 33 returns without [close()]: one more document is left open. *)
Lemma extract_page_failure_leaks (pdf_file : list byte) (w : world) pages e :
  fitz_open env pdf_file = Opened pages ->
  first_page_error pages = Some e ->
  open_docs (snd (extract_text_from_pdf env pdf_file w)) = S (open_docs w).
Proof.
  intros Ho He. rewrite extract_text_from_pdf_spec, Ho, He. reflexivity.
Qed.

End ExtractorFacts.

(** The extractor on bytes PyMuPDF refuses, and on a document whose second
    page cannot be loaded. *)
Lemma extract_failure_is_signalled_witness :
  let env1 := Demo.env (OpenRaises Demo.corrupt) [] in
  let env2 := Demo.env (Opened [Demo.long_page; LoadPageRaises Demo.corrupt]) [] in
  (fst (extract_text_from_pdf env1 [] initial_world) = Returned None /\
   events (snd (extract_text_from_pdf env1 [] initial_world))
   = [StError (py "Error reading PDF file: Failed to open stream")])
  /\
  (fst (extract_text_from_pdf env2 [] initial_world) = Returned None /\
   events (snd (extract_text_from_pdf env2 [] initial_world))
   = [StError (py "Error reading PDF file: Failed to open stream")]).
Proof.
  intros env1 env2. split.
  - exact (proj1 (extract_failure_is_signalled env1 [] initial_world)
                 Demo.corrupt eq_refl).
  - exact (proj1 (proj2 (extract_failure_is_signalled env2 [] initial_world))
                 _ Demo.corrupt eq_refl eq_refl).
Defined.

(** C6, at a failing input: a document that opens and whose only page
    cannot be loaded.  The extractor returns the failure signal with the
    document still open. *)
Theorem extract_leaks_handle_on_page_failure :
  extract_text_from_pdf
    (Demo.env (Opened [LoadPageRaises Demo.corrupt]) []) [] initial_world
  = (Returned None,
     mkWorld 0 1 [StError (py "Error reading PDF file: Failed to open stream")]).
Proof. reflexivity. Qed.

(* ------------------------------------------------------------------ *)
(** ** Properties of the Analysis Client: one attempt *)

Lemma for_each_cons {I A} (i : I) (rest : list I) (body : I -> M (flow A))
      (after : M A) (w : world) :
  for_each (i :: rest) body after w =
  match body i w with
  | (Returned (Return a), w') => (Returned a, w')
  | (Returned Continue, w') => for_each rest body after w'
  | (Raised e, w') => (Raised e, w')
  end.
Proof.
  simpl. unfold bind. destruct (body i w) as [[[|a]|e] w']; reflexivity.
Qed.

(** Subscripting and membership raise builtin exceptions only. *)
Lemma getitem_raises (k : pystr) (v : value) (e : exn) :
  getitem k v = Raised e -> is_RequestException e = false.
Proof.
  destruct v as [| | | | | |d]; simpl; try (now intros [= <-]).
  destruct (dict_lookup k d); [discriminate|now intros [= <-]].
Qed.

Lemma getitem0_raises (v : value) (e : exn) :
  getitem0 v = Raised e -> is_RequestException e = false.
Proof.
  destruct v as [| | | |[|c s]|[|x l]|d]; simpl;
    try discriminate; now intros [= <-].
Qed.

Lemma contains_str_raises (k : pystr) (v : value) (e : exn) :
  contains_str k v = Raised e -> is_RequestException e = false.
Proof.
  destruct v; simpl; try discriminate; now intros [= <-].
Qed.

Lemma and_then_raises {A B} (o : outcome A) (k : A -> outcome B) (e : exn) :
  and_then o k = Raised e ->
  o = Raised e \/ exists a, o = Returned a /\ k a = Raised e.
Proof.
  destruct o as [a|e']; simpl; intros H.
  - right. now exists a.
  - left. now injection H as <-.
Qed.

Lemma first_part_raises (result : value) (e : exn) :
  first_part result = Raised e -> is_RequestException e = false.
Proof.
  unfold first_part. intros H.
  repeat (apply and_then_raises in H;
          destruct H as [H|[? [_ H]]];
          [now first [apply getitem_raises in H | apply getitem0_raises in H]|]).
  now apply getitem0_raises in H.
Qed.

Lemma candidate_text_raises (result : value) (e : exn) :
  candidate_text result = Raised e -> is_RequestException e = false.
Proof.
  unfold candidate_text. intros H.
  apply and_then_raises in H. destruct H as [H|[part [_ H]]].
  - now apply first_part_raises in H.
  - now apply getitem_raises in H.
Qed.

Section AttemptFacts.

Variable env : collaborators.

Lemma transport_error_request_error (b : post_behaviour) (e : exn) :
  transport_error env b = Some e -> request_error env b = Some e.
Proof.
  destruct b as [e'|r]; simpl; [trivial|].
  destruct (error_status r); [trivial|discriminate].
Qed.

Lemma request_error_is_RequestException (b : post_behaviour) (e : exn) :
  request_error env b = Some e -> is_RequestException e = true.
Proof.
  destruct b as [e'|r]; simpl.
  - destruct (is_RequestException e') eqn:E; [|discriminate].
    now intros [= <-].
  - destruct (error_status r); [now intros [= <-]|].
    destruct (json_loads env (body r)); [discriminate|now intros [= <-]].
Qed.

(** One attempt, by what the network answers. *)
Lemma attempt_unfold (data : pystr) (i : nat) (w : world) :
  attempt env data i w =
  match requests_post env (http_calls w) data with
  | PostRaises e => handler i e (posted env data w)
  | PostReturns r =>
      if error_status r
      then handler i (mkExn ReqHTTPError (http_error_msg env r)) (posted env data w)
      else match json_loads env (body r) with
           | None => handler i (mkExn ReqJSONDecodeError (py "Expecting value"))
                             (posted env data w)
           | Some result => try_except (consume env result) (handler i) (posted env data w)
           end
  end.
Proof.
  unfold attempt, try_except, bind, post, raise_for_status, response_json,
    error_status, posted, request.
  destruct (requests_post env (http_calls w) data) as [e|r]; [reflexivity|].
  destruct ((400 <=? status_code r)%Z && (status_code r <? 600)%Z); [reflexivity|].
  simpl. destruct (json_loads env (body r)); reflexivity.
Qed.

Lemma handler_retry (i : nat) (e : exn) (w : world) :
  is_RequestException e = true -> i < 2 ->
  handler i e w = (Returned Continue, said (Sleep (2 ^ Z.of_nat i)) w).
Proof.
  intros He Hi. unfold handler. rewrite He.
  destruct (Nat.ltb_spec i 2); [reflexivity|lia].
Qed.

Lemma handler_give_up (i : nat) (e : exn) (w : world) :
  is_RequestException e = true -> 2 <= i ->
  handler i e w = (Returned (Return VNone), said (gave_up e) w).
Proof.
  intros He Hi. unfold handler. rewrite He.
  destruct (Nat.ltb_spec i 2); [lia|reflexivity].
Qed.

Lemma handler_shape (i : nat) (e : exn) (w : world) :
  is_RequestException e = false -> is_shape_error e = true ->
  handler i e w = (Returned (Return VNone), said (StError PARSE_FAILURE) w).
Proof. intros H1 H2. unfold handler. rewrite H1, H2. reflexivity. Qed.

Lemma handler_reraises (i : nat) (e : exn) (w : world) :
  is_RequestException e = false -> is_shape_error e = false ->
  handler i e w = (Raised e, w).
Proof. intros H1 H2. unfold handler. rewrite H1, H2. reflexivity. Qed.

(** An attempt that raises a RequestException. *)
Lemma attempt_request_error (data : pystr) (i : nat) (w : world) (e : exn) :
  request_error env (requests_post env (http_calls w) data) = Some e ->
  attempt env data i w = handler i e (posted env data w).
Proof.
  intros H. rewrite attempt_unfold.
  destruct (requests_post env (http_calls w) data) as [e'|r]; simpl in H.
  - destruct (is_RequestException e'); [now injection H as <-|discriminate].
  - destruct (error_status r); [now injection H as <-|].
    destruct (json_loads env (body r)); [discriminate|now injection H as <-].
Qed.

(** What [consume] can do with a decoded body: return a decoded value,
    or report the unexpected response, or raise something that is not a
    RequestException.  It never asks for another iteration. *)
Lemma consume_cases (result : value) (w : world) :
  (exists v, consume env result w = (Returned (Return v), w)) \/
  consume env result w = (Returned (Return VNone), said (StError UNEXPECTED_RESPONSE) w) \/
  (exists e, consume env result w = (Raised e, w) /\ is_RequestException e = false).
Proof.
  unfold consume, bind, lift, loads.
  destruct (contains_str (py "candidates") result) as [[|]|e] eqn:Hc.
  - destruct (candidate_text result) as [t|e] eqn:Ht.
    + cbn [ret]. destruct (truthy t) eqn:Htr.
      * destruct t; try (right; right; eexists; split; [reflexivity|reflexivity]).
        destruct (json_loads env s).
        -- left. eexists. reflexivity.
        -- right; right. eexists; split; reflexivity.
      * right; left. reflexivity.
    + right; right. exists e. split; [reflexivity|].
      now apply candidate_text_raises in Ht.
  - right; left. reflexivity.
  - right; right. exists e. split; [reflexivity|].
    now apply contains_str_raises in Hc.
Qed.

End AttemptFacts.

(* ------------------------------------------------------------------ *)
(** ** Properties of the Analysis Client: the retry loop *)

Section ClientFacts.

Variable env : collaborators.

Lemma handler_ends (data : pystr) (i : nat) (w : world) (e : exn) :
  request_error env (requests_post env (http_calls w) data) = None ->
  is_RequestException e = false ->
  attempt_ends env data i w (handler i e (posted env data w)).
Proof.
  intros Hn He. destruct (is_shape_error e) eqn:Hs.
  - rewrite handler_shape by assumption. now apply ends_rejected.
  - rewrite handler_reraises by assumption. now apply ends_raised.
Qed.

Lemma attempt_ends_holds (data : pystr) (i : nat) (w : world) :
  attempt_ends env data i w (attempt env data i w).
Proof.
  destruct (request_error env (requests_post env (http_calls w) data)) as [e|] eqn:Hr.
  - rewrite (@attempt_request_error env data i w e Hr).
    pose proof (@request_error_is_RequestException env _ e Hr) as He.
    destruct (Nat.lt_ge_cases i 2) as [Hi|Hi].
    + rewrite handler_retry by assumption. now apply ends_retry with e.
    + rewrite handler_give_up by assumption. now apply ends_gave_up.
  - rewrite attempt_unfold.
    destruct (requests_post env (http_calls w) data) as [e|r] eqn:Hp;
      rewrite <- Hp in Hr;
      assert (Hn := Hr); rewrite Hp in Hr; unfold request_error in Hr.
    + destruct (is_RequestException e) eqn:He; [discriminate|].
      now apply handler_ends.
    + destruct (error_status r); [discriminate|].
      destruct (json_loads env (body r)) as [result|]; [|discriminate].
      unfold try_except.
      destruct (consume_cases env result (posted env data w))
        as [[v Hc]|[Hc|[e [Hc He]]]]; rewrite Hc.
      * now apply ends_result.
      * now apply ends_rejected.
      * now apply handler_ends.
Qed.

(** Every attempt makes exactly one HTTP call. *)
Lemma attempt_one_call (data : pystr) (i : nat) (w : world) :
  http_calls (snd (attempt env data i w)) = S (http_calls w).
Proof.
  destruct (attempt_ends_holds data i w); reflexivity.
Qed.

Lemma said_posted_events (data : pystr) (ev : event) (w : world) :
  events (said ev (posted env data w)) = events w ++ [request env data; ev].
Proof. simpl. now rewrite <- app_assoc. Qed.

Lemma quiet_nil : quiet [].
Proof. now left. Qed.

Lemma quiet_error (msg : pystr) : quiet [StError msg].
Proof. right. now exists msg. Qed.

Lemma run_first_world text w o w' tail :
  quiet tail ->
  request_error env (requests_post env (http_calls w) (json_dumps env (payload text))) = None ->
  http_calls w' = 1 + http_calls w ->
  open_docs w' = open_docs w ->
  events w' = events w ++ [request env (json_dumps env (payload text))] ++ tail ->
  run_ends env text w (o, w').
Proof.
  destruct w' as [c d ev]; simpl; intros Hq H0 -> -> ->. now apply run_first.
Qed.

Lemma run_second_world text w o w' tail e0 :
  quiet tail ->
  let data := json_dumps env (payload text) in
  request_error env (requests_post env (http_calls w) data) = Some e0 ->
  request_error env (requests_post env (1 + http_calls w) data) = None ->
  http_calls w' = 2 + http_calls w ->
  open_docs w' = open_docs w ->
  events w' = events w ++ [request env data; Sleep 1; request env data] ++ tail ->
  run_ends env text w (o, w').
Proof.
  destruct w' as [c d ev]; simpl; intros Hq H0 H1 -> -> ->. now apply run_second with e0.
Qed.

Lemma run_third_world text w o w' tail e0 e1 :
  quiet tail ->
  let data := json_dumps env (payload text) in
  request_error env (requests_post env (http_calls w) data) = Some e0 ->
  request_error env (requests_post env (1 + http_calls w) data) = Some e1 ->
  http_calls w' = 3 + http_calls w ->
  open_docs w' = open_docs w ->
  events w' = events w ++ [request env data; Sleep 1; request env data; Sleep 2;
                           request env data] ++ tail ->
  run_ends env text w (o, w').
Proof.
  destruct w' as [c d ev]; simpl; intros Hq H0 H1 -> -> ->.
  now apply run_third with e0 e1.
Qed.

Ltac trace_eq := simpl; repeat rewrite <- app_assoc; reflexivity.

(** Every run of the client ends in one of the three shapes. *)
Lemma analyze_run_ends (text : pystr) (w : world) :
  run_ends env text w (analyze_text_with_gemini env text w).
Proof.
  unfold analyze_text_with_gemini, range. cbn [seq].
  set (data := json_dumps env (payload text)).
  rewrite for_each_cons.
  destruct (attempt_ends_holds data 0 w) as [e0 H0 _|e0 _ Hi|v H0|msg H0|e H0 _];
    try (apply run_first_world with (tail := []);
         [apply quiet_nil|exact H0|reflexivity|reflexivity|trace_eq]);
    try (apply run_first_world with (tail := [StError msg]);
         [apply quiet_error|exact H0|reflexivity|reflexivity|trace_eq]);
    [|lia].
  set (w1 := said (Sleep (2 ^ Z.of_nat 0)) (posted env data w)).
  rewrite for_each_cons.
  destruct (attempt_ends_holds data 1 w1) as [e1 H1 _|e1 _ Hi|v H1|msg H1|e H1 _];
    try (apply run_second_world with (tail := []) (e0 := e0);
         [apply quiet_nil|exact H0|exact H1|reflexivity|reflexivity|trace_eq]);
    try (apply run_second_world with (tail := [StError msg]) (e0 := e0);
         [apply quiet_error|exact H0|exact H1|reflexivity|reflexivity|trace_eq]);
    [|lia].
  set (w2 := said (Sleep (2 ^ Z.of_nat 1)) (posted env data w1)).
  rewrite for_each_cons.
  destruct (attempt_ends_holds data 2 w2) as [e2 _ Hi|e2 H2 _|v _|msg _|e _ _];
    try (apply run_third_world with (tail := []) (e0 := e0) (e1 := e1);
         [apply quiet_nil|exact H0|exact H1|reflexivity|reflexivity|trace_eq]);
    try (apply run_third_world with (tail := [StError msg]) (e0 := e0) (e1 := e1);
         [apply quiet_error|exact H0|exact H1|reflexivity|reflexivity|trace_eq]);
    [lia|].
  apply run_third_world with (tail := [gave_up e2]) (e0 := e0) (e1 := e1);
    [apply quiet_error|exact H0|exact H1|reflexivity|reflexivity|trace_eq].
Qed.

End ClientFacts.

(* ------------------------------------------------------------------ *)
(** ** The retry policy *)

Section RetryPolicy.

Variable env : collaborators.

Lemma success_status_no_error (r : response) :
  success_status r -> error_status r = false.
Proof.
  unfold success_status, error_status. intros [_ H].
  apply andb_false_iff. left. apply Z.leb_gt. lia.
Qed.

Lemma attempt_answers (data : pystr) (i : nat) (w : world) (r : response) (v : value) :
  requests_post env (http_calls w) data = PostReturns r ->
  answers env r v ->
  attempt env data i w = (Returned (Return v), posted env data w).
Proof.
  intros Hp [Hs (result & t & Hb & Hc & Ht & Hne & Hv)].
  rewrite attempt_unfold, Hp, (success_status_no_error Hs), Hb.
  unfold try_except, consume, bind, lift. rewrite Hc, Ht. cbn [ret].
  destruct t as [|c t]; [contradiction|]. cbn [truthy loads].
  rewrite Hv. reflexivity.
Qed.

Lemma attempt_transport_error (data : pystr) (i : nat) (w : world) (e : exn) :
  transport_error env (requests_post env (http_calls w) data) = Some e ->
  attempt env data i w = handler i e (posted env data w) /\
  is_RequestException e = true.
Proof.
  intros H. apply transport_error_request_error in H. split.
  - now apply attempt_request_error.
  - exact (request_error_is_RequestException _ _ H).
Qed.

Ltac fail_attempt H :=
  rewrite for_each_cons;
  match goal with
  | |- context [attempt env ?d ?i ?w0] =>
      let Ha := fresh "Ha" in
      let He := fresh "He" in
      destruct (@attempt_transport_error d i w0 _ H) as [Ha He];
      rewrite Ha;
      first [rewrite (@handler_retry i _ _ He) by lia
            |rewrite (@handler_give_up i _ _ He) by lia];
      clear Ha
  end.

(** C1 (amended).  The client makes at most three HTTP attempts.  After a
    transport-level failure (an exception of [requests.post] such as a
    connection error or a timeout, or a 4xx or 5xx status) on attempt 0 it
    sleeps 1 and makes a second attempt; after another on attempt 1 it
    sleeps 2 and makes a third; a third failure is not retried: the
    failure signal is returned after exactly three calls.  When the third
    call is answered, its decoded result is returned after exactly three
    calls and sleeps of 1 and 2. *)
Theorem retry_policy (text : pystr) (w : world) :
  let data := json_dumps env (payload text) in
  let n := http_calls w in
  let run := analyze_text_with_gemini env text w in
  let failed k e := transport_error env (requests_post env k data) = Some e in
  http_calls (snd run) <= n + 3
  /\
  (forall e0, failed n e0 ->
     exists rest,
       events (snd run)
       = events w ++ [request env data; Sleep 1; request env data] ++ rest)
  /\
  (forall e0 e1, failed n e0 -> failed (1 + n) e1 ->
     exists rest,
       events (snd run)
       = events w ++ [request env data; Sleep 1; request env data; Sleep 2;
                      request env data] ++ rest)
  /\
  (forall e0 e1 e2, failed n e0 -> failed (1 + n) e1 -> failed (2 + n) e2 ->
     run = (Returned VNone,
            mkWorld (3 + n) (open_docs w)
                    (events w ++ [request env data; Sleep 1; request env data; Sleep 2;
                                  request env data; gave_up e2])))
  /\
  (forall e0 e1 r v, failed n e0 -> failed (1 + n) e1 ->
     requests_post env (2 + n) data = PostReturns r -> answers env r v ->
     run = (Returned v,
            mkWorld (3 + n) (open_docs w)
                    (events w ++ [request env data; Sleep 1; request env data; Sleep 2;
                                  request env data]))).
Proof.
  intros data n run failed. subst failed. cbv beta.
  pose proof (analyze_run_ends env text w) as Hrun. fold run in Hrun.
  repeat split.
  - inversion Hrun; subst n; simpl; lia.
  - intros e0 H0. apply transport_error_request_error in H0.
    inversion Hrun as [o tail _ d Hn|o tail e _ d _ _|o tail e e' _ d _ _];
      subst d; simpl.
    + fold data in Hn. subst n. congruence.
    + now exists tail.
    + now exists ([Sleep 2; request env data] ++ tail).
  - intros e0 e1 H0 H1. apply transport_error_request_error in H0, H1.
    inversion Hrun as [o tail _ d Hn|o tail e _ d _ Hn|o tail e e' _ d _ _];
      subst d; simpl.
    + fold data in Hn. subst n. congruence.
    + fold data in Hn. subst n. congruence.
    + now exists tail.
  - intros e0 e1 e2 H0 H1 H2. subst run n.
    unfold analyze_text_with_gemini, range. cbn [seq]. fold data.
    fail_attempt H0. fail_attempt H1. fail_attempt H2.
    unfold said, posted; simpl. repeat rewrite <- app_assoc. reflexivity.
  - intros e0 e1 r v H0 H1 H2 Hv. subst run n.
    unfold analyze_text_with_gemini, range. cbn [seq]. fold data.
    fail_attempt H0. fail_attempt H1.
    rewrite for_each_cons.
    match goal with
    | |- context [attempt env data 2 ?w2] =>
        rewrite (@attempt_answers data 2 w2 r v H2 Hv)
    end.
    unfold said, posted; simpl. repeat rewrite <- app_assoc. reflexivity.
Qed.

End RetryPolicy.

Lemma demo_answers (pdf : open_behaviour) (net : list post_behaviour) (code : Z) :
  (200 <= code < 300)%Z ->
  answers (Demo.env pdf net)
          (mkResponse code (Demo.dumps (Demo.reply Demo.analysis))) Demo.analysis.
Proof.
  intros Hc. split; [exact Hc|].
  exists (Demo.reply Demo.analysis), (Demo.dumps Demo.analysis).
  repeat split; try (vm_compute; reflexivity).
  vm_compute. discriminate.
Qed.

(** Two runs of the client: a refused connection, a 503, then an answer;
    and a timeout, a 503, then a refused connection. *)
Lemma retry_policy_witness :
  let pdf := OpenRaises Demo.corrupt in
  let env1 := Demo.env pdf [Demo.refused; Demo.unavailable;
                            Demo.ok (Demo.reply Demo.analysis)] in
  let env2 := Demo.env pdf [Demo.timed_out; Demo.unavailable; Demo.refused] in
  let text := py "hello" in
  let req := request env1 (Demo.dumps (payload text)) in
  analyze_text_with_gemini env1 text initial_world
  = (Returned Demo.analysis, mkWorld 3 0 [req; Sleep 1; req; Sleep 2; req])
  /\
  analyze_text_with_gemini env2 text initial_world
  = (Returned VNone,
     mkWorld 3 0 [req; Sleep 1; req; Sleep 2; req;
                  StError (py "Failed to connect to the AI model after several retries: connection refused")]).
Proof.
  intros pdf env1 env2 text req. split.
  - refine (proj2 (proj2 (proj2 (proj2 (retry_policy env1 text initial_world))))
                  _ _ _ Demo.analysis eq_refl eq_refl eq_refl _).
    apply demo_answers. lia.
  - exact (proj1 (proj2 (proj2 (proj2 (retry_policy env2 text initial_world))))
                 _ _ _ eq_refl eq_refl eq_refl).
Defined.

(** A response with status 300 and a well-formed body: [raise_for_status]
    lets it pass, the body is decoded and returned after one call and no
    sleep. *)
Lemma status_300_is_not_retried :
  let env := Demo.env (OpenRaises Demo.corrupt)
                      [Demo.status 300 (Demo.reply Demo.analysis)] in
  let text := py "hello" in
  failure_as_stated (requests_post env 0 (json_dumps env (payload text))) = true /\
  analyze_text_with_gemini env text initial_world
  = (Returned Demo.analysis,
     mkWorld 1 0 [request env (json_dumps env (payload text))]).
Proof. split; vm_compute; reflexivity. Qed.

(** C1 as stated fails: a status outside 2xx is not always retried. *)
Lemma retry_policy_as_stated_fails : ~ retry_policy_as_stated.
Proof.
  intros H.
  destruct (H (Demo.env (OpenRaises Demo.corrupt)
                        [Demo.status 300 (Demo.reply Demo.analysis)])
              (py "hello") initial_world (proj1 status_300_is_not_retried))
    as [rest Hrest].
  rewrite (proj2 status_300_is_not_retried) in Hrest.
  simpl in Hrest. discriminate Hrest.
Qed.

(* ------------------------------------------------------------------ *)
(** ** Shape errors are terminal *)

Section ShapeErrors.

Variable env : collaborators.

Lemma first_part_has_candidates (d : list (pystr * value)) (part : value) :
  first_part (VDict d) = Returned part ->
  contains_str (py "candidates") (VDict d) = Returned true.
Proof.
  unfold first_part. simpl.
  destruct (dict_lookup (py "candidates") d); [reflexivity|discriminate].
Qed.

Lemma candidate_text_has_candidates (d : list (pystr * value)) (t : value) :
  candidate_text (VDict d) = Returned t ->
  contains_str (py "candidates") (VDict d) = Returned true.
Proof.
  unfold candidate_text. intros H.
  destruct (first_part (VDict d)) as [part|e] eqn:Hp; [|discriminate].
  now apply first_part_has_candidates with part.
Qed.

(** What the try block and its handlers make of a defective body. *)
Lemma defect_is_reported (result : value) (i : nat) (w : world) :
  shape_defect env result ->
  exists msg,
    (msg = UNEXPECTED_RESPONSE \/ msg = PARSE_FAILURE) /\
    try_except (consume env result) (handler i) w
    = (Returned (Return VNone), said (StError msg) w).
Proof.
  intros [res H|d H|d part Hp H|d c o Hc H|d c ct o Hc Hct H|d c ct o Hc Hct H
          |d part t Hp H Ht|d t Hc Hne H];
    unfold try_except, consume, bind, lift.
  - exists UNEXPECTED_RESPONSE. split; [now left|].
    rewrite H. reflexivity.
  - exists PARSE_FAILURE. split; [now right|].
    unfold candidate_text, first_part. simpl. rewrite H. reflexivity.
  - exists PARSE_FAILURE. split; [now right|].
    rewrite (first_part_has_candidates _ Hp).
    unfold candidate_text. rewrite Hp. simpl. rewrite H. reflexivity.
  - exists PARSE_FAILURE. split; [now right|].
    unfold candidate_text, first_part. simpl. rewrite Hc. simpl. rewrite H.
    reflexivity.
  - exists PARSE_FAILURE. split; [now right|].
    unfold candidate_text, first_part. simpl. rewrite Hc. simpl. rewrite Hct.
    simpl. rewrite H. reflexivity.
  - exists PARSE_FAILURE. split; [now right|].
    unfold candidate_text, first_part. simpl. rewrite Hc. simpl. rewrite Hct.
    simpl. rewrite H. reflexivity.
  - exists UNEXPECTED_RESPONSE. split; [now left|].
    rewrite (first_part_has_candidates _ Hp).
    unfold candidate_text. rewrite Hp. simpl. rewrite H.
    destruct Ht as [-> | ->]; reflexivity.
  - exists PARSE_FAILURE. split; [now right|].
    rewrite (candidate_text_has_candidates _ Hc), Hc.
    destruct t as [|c t]; [contradiction|].
    simpl. rewrite H. reflexivity.
Qed.

(** X19. When a response with a success status decodes to a body with
    one of the defects of [shape_defect], the loop is left in that very
    iteration, whichever it is and whatever iterations remain: the client
    returns [None] after one [st.error], having made this one HTTP call
    and no sleep. *)
Theorem shape_errors_are_terminal
        (data : pystr) (i : nat) (rest : list nat) (after : M value)
        (w : world) (r : response) (result : value) :
  requests_post env (http_calls w) data = PostReturns r ->
  success_status r ->
  json_loads env (body r) = Some result ->
  shape_defect env result ->
  exists msg,
    (msg = UNEXPECTED_RESPONSE \/ msg = PARSE_FAILURE) /\
    for_each (i :: rest) (attempt env data) after w
    = (Returned VNone,
       mkWorld (S (http_calls w)) (open_docs w)
               (events w ++ [request env data; StError msg])).
Proof.
  intros Hp Hs Hb Hd.
  destruct (defect_is_reported i (posted env data w) Hd) as (msg & Hmsg & Hrun).
  exists msg. split; [exact Hmsg|].
  rewrite for_each_cons, attempt_unfold, Hp, (success_status_no_error Hs), Hb, Hrun.
  unfold said, posted. simpl. now rewrite <- app_assoc.
Qed.

(** X3. Whatever a success response with a JSON body decodes to, the loop is
    left in that iteration: one request, at most one [st.error] after it,
    no sleep and no further request.  The function returns, or raises an
    exception that is no RequestException. *)
Lemma decoded_response_ends_run
      (data : pystr) (i : nat) (rest : list nat) (after : M value)
      (w : world) (r : response) (result : value) :
  requests_post env (http_calls w) data = PostReturns r ->
  success_status r ->
  json_loads env (body r) = Some result ->
  exists o tail,
    for_each (i :: rest) (attempt env data) after w
    = (o, mkWorld (S (http_calls w)) (open_docs w)
                  (events w ++ request env data :: tail)) /\
    quiet tail /\
    forall e, o = Raised e -> is_RequestException e = false.
Proof.
  intros Hp Hs Hb.
  assert (Hn : request_error env (requests_post env (http_calls w) data) = None).
  { rewrite Hp. unfold request_error. now rewrite (success_status_no_error Hs), Hb. }
  rewrite for_each_cons.
  destruct (attempt_ends_holds env data i w) as [e He _|e He _|v _|msg _|e _ He];
    try congruence.
  - exists (Returned v), []. repeat split; [apply quiet_nil|discriminate].
  - exists (Returned VNone), [StError msg]. split; [|split].
    + unfold said, posted. simpl. now rewrite <- app_assoc.
    + apply quiet_error.
    + discriminate.
  - exists (Raised e), []. repeat split; [apply quiet_nil|].
    now intros e' [= <-].
Qed.

End ShapeErrors.

(** A 200 response whose candidate list is empty, as the first answer:
    the client stops there although the second answer would be good. *)
Lemma shape_errors_are_terminal_witness :
  let env := Demo.env (OpenRaises Demo.corrupt)
                      [Demo.ok (VDict [(py "candidates", VList [])]);
                       Demo.ok (Demo.reply Demo.analysis)] in
  let data := json_dumps env (payload (py "hello")) in
  exists msg,
    (msg = UNEXPECTED_RESPONSE \/ msg = PARSE_FAILURE) /\
    analyze_text_with_gemini env (py "hello") initial_world
    = (Returned VNone, mkWorld 1 0 ([] ++ [request env data; StError msg])).
Proof.
  intros env data.
  apply (@shape_errors_are_terminal env data 0 [1; 2] (ret VNone) initial_world
           (mkResponse 200 (Demo.dumps (VDict [(py "candidates", VList [])])))
           (VDict [(py "candidates", VList [])])).
  - reflexivity.
  - unfold success_status; simpl; lia.
  - vm_compute. reflexivity.
  - apply empty_candidates. reflexivity.
Defined.

(* ------------------------------------------------------------------ *)
(** ** A decoded body of an unexpected type *)

(** C10, at a failing input: the first response has status 200 and the
    body [null].  [response.json()] returns [None]; the membership test of
    line 75 raises TypeError, which neither except clause takes: the
    client does not return, the exception leaves the function. *)
Theorem null_body_raises_TypeError :
  let env := Demo.env (OpenRaises Demo.corrupt) [Demo.ok VNone] in
  let data := json_dumps env (payload (py "hello")) in
  body (mkResponse 200 (Demo.dumps VNone)) = py "null" /\
  analyze_text_with_gemini env (py "hello") initial_world
  = (Raised (mkExn TypeError (py "argument is not iterable")),
     mkWorld 1 0 [request env data]).
Proof. split; vm_compute; reflexivity. Qed.

(** C2, at two failing inputs, both with status 200.  A body whose
    candidate list is null: the subscript of line 75 raises TypeError,
    which neither except clause takes, so no failure signal is returned.
    A body that is no JSON at all: it is not reported at once, the
    client sleeps and asks again, three requests in all. *)
Theorem null_candidates_are_not_reported :
  let pdf := OpenRaises Demo.corrupt in
  let page := PostReturns (mkResponse 200 (py "<html>Bad gateway</html>")) in
  let env1 := Demo.env pdf [Demo.ok (VDict [(py "candidates", VNone)]);
                            Demo.ok (Demo.reply Demo.analysis)] in
  let env2 := Demo.env pdf [page; page; page] in
  let text := py "hello" in
  let req := request env1 (Demo.dumps (payload text)) in
  (json_loads env1 (Demo.dumps (VDict [(py "candidates", VNone)]))
   = Some (VDict [(py "candidates", VNone)]) /\
   exists e,
     exn_cls e = TypeError /\
     analyze_text_with_gemini env1 text initial_world
     = (Raised e, mkWorld 1 0 [req]))
  /\
  (exists decoder_says,
     analyze_text_with_gemini env2 text initial_world
     = (Returned VNone,
        mkWorld 3 0 [req; Sleep 1; req; Sleep 2; req;
                     StError (py "Failed to connect to the AI model after several retries: "
                              ++ decoder_says)])).
Proof.
  intros pdf page env1 env2 text req. split.
  - split; [vm_compute; reflexivity|].
    exists (mkExn TypeError (py "object is not subscriptable")).
    split; vm_compute; reflexivity.
  - exists (py "Expecting value"). vm_compute. reflexivity.
Qed.

(* ------------------------------------------------------------------ *)
(** ** The request payload *)

Section Payload.

Variable env : collaborators.

Lemma payload_prompt_spec (text : pystr) :
  payload_prompt (payload text)
  = Returned (VStr (PROMPT_HEAD ++ truncated_text text ++ [QUOTE])).
Proof.
  unfold payload_prompt, payload, prompt, PROMPT_HEAD. simpl.
  repeat rewrite <- app_assoc. reflexivity.
Qed.

Lemma payload_schema_spec (text : pystr) :
  payload_schema (payload text) = Returned responseSchema.
Proof. reflexivity. Qed.

Lemma quiet_carries (data : pystr) (tail : list event) :
  quiet tail -> Forall (carries data) tail.
Proof.
  intros [->|[msg ->]]; repeat constructor.
Qed.

(** Every run sends at least one request, and every request it sends has
    the serialized payload as its body. *)
Lemma analyze_requests (text : pystr) (w : world) :
  let data := json_dumps env (payload text) in
  exists evs,
    events (snd (analyze_text_with_gemini env text w))
    = events w ++ HttpPost (API_URL env) headers data :: evs /\
    Forall (carries data) evs.
Proof.
  intros data.
  destruct (analyze_run_ends env text w) as [o tail Hq d _|o tail e0 Hq d _ _|o tail e0 e1 Hq d _ _];
    subst d; fold data; simpl; eexists; (split; [reflexivity|]);
    repeat (constructor; simpl; trivial); now apply quiet_carries.
Qed.

(** C4. For a text of more than 15,000 characters the client keeps
    exactly the first 15,000, as they are: the cut is at the character
    count and nowhere else.  The prompt of the payload is the fixed
    instruction, those characters between quotes, and nothing more; and
    every request of the run has the serialization of that payload as its
    body, the first request being always sent. *)
Theorem payload_carries_first_15000 (text : pystr) (w : world) :
  15000 < List.length text ->
  let kept := truncated_text text in
  let data := json_dumps env (payload text) in
  List.length kept = 15000 /\
  (exists dropped, text = kept ++ dropped /\ dropped <> []) /\
  (forall i, i < 15000 -> nth_error kept i = nth_error text i) /\
  payload_prompt (payload text) = Returned (VStr (PROMPT_HEAD ++ kept ++ [QUOTE])) /\
  exists evs,
    events (snd (analyze_text_with_gemini env text w))
    = events w ++ HttpPost (API_URL env) headers data :: evs /\
    Forall (carries data) evs.
Proof.
  intros Hlen kept data. subst kept.
  split; [|split; [|split; [|split]]]; try unfold truncated_text at 1.
  - apply firstn_length_le. lia.
  - exists (skipn 15000 text). split.
    + symmetry. apply firstn_skipn.
    + intros H. apply (f_equal (@List.length N)) in H.
      rewrite length_skipn in H. change (List.length (@nil N)) with 0 in H. lia.
  - intros i Hi. rewrite nth_error_firstn.
    apply Nat.ltb_lt in Hi. now rewrite Hi.
  - apply payload_prompt_spec.
  - apply analyze_requests.
Qed.

(** C9. The request depends on the first 15,000 characters of the text
    only: two texts that agree on them give the same payload, hence the
    same serialized body, and the whole run of the client is the same.
    The schema of every payload requires the four fields. *)
Theorem request_depends_on_first_15000_only (text1 text2 : pystr) :
  firstn 15000 text1 = firstn 15000 text2 ->
  payload text1 = payload text2 /\
  payload_prompt (payload text1) = payload_prompt (payload text2) /\
  payload_schema (payload text1) = payload_schema (payload text2) /\
  (and_then (payload_schema (payload text1)) (getitem (py "required"))
   = Returned (VList [VStr (py "summary"); VStr (py "keywords");
                      VStr (py "sentiment"); VStr (py "language")])) /\
  json_dumps env (payload text1) = json_dumps env (payload text2) /\
  (forall w, analyze_text_with_gemini env text1 w = analyze_text_with_gemini env text2 w).
Proof.
  intros H.
  assert (Hp : payload text1 = payload text2).
  { unfold payload, truncated_text. now rewrite H. }
  repeat split; try (now rewrite Hp).
  intros w. unfold analyze_text_with_gemini. now rewrite Hp.
Qed.

(** Characters from index 15,000 on have no influence on the payload. *)
Lemma payload_ignores_tail (text extra1 extra2 : pystr) :
  List.length text = 15000 ->
  payload (text ++ extra1) = payload (text ++ extra2).
Proof.
  intros H. unfold payload, truncated_text.
  rewrite <- H. now rewrite !firstn_app, !firstn_all, Nat.sub_diag.
Qed.

End Payload.

(** Texts that agree up to character 15,000 and differ after it. *)
Lemma request_depends_on_first_15000_only_witness :
  let env := Demo.env (OpenRaises Demo.corrupt) [] in
  let text1 := repeat 97%N 15000 ++ py "one ending" in
  let text2 := repeat 97%N 15000 ++ py "another" in
  text1 <> text2 /\ payload text1 = payload text2.
Proof.
  intros env text1 text2. split.
  - intros H. apply (f_equal (@List.length N)) in H. vm_compute in H. discriminate.
  - apply (@request_depends_on_first_15000_only env text1 text2).
    vm_compute. reflexivity.
Defined.

(** A text of 15,003 characters. *)
Lemma payload_carries_first_15000_witness :
  let env := Demo.env (OpenRaises Demo.corrupt) [Demo.ok (Demo.reply Demo.analysis)] in
  let text := repeat 97%N 15000 ++ py "xyz" in
  List.length (truncated_text text) = 15000 /\
  truncated_text text = repeat 97%N 15000.
Proof.
  intros env text. split.
  - apply (@payload_carries_first_15000 env text initial_world).
    apply Nat.ltb_lt. vm_compute. reflexivity.
  - vm_compute. reflexivity.
Defined.

(* ------------------------------------------------------------------ *)
(** ** Properties of the pipeline guard *)

Lemma emit_extend (ev : event) (w : world) :
  emit ev w = (Returned tt, extend [ev] w).
Proof. reflexivity. Qed.

Lemma extend_extend (a b : list event) (w : world) :
  extend b (extend a w) = extend (a ++ b) w.
Proof. unfold extend. simpl. now rewrite app_assoc. Qed.

Section Pipeline.

Variable env : collaborators.

Lemma extract_returns_extracted (pdf_file : list byte) (w : world) :
  fst (extract_text_from_pdf env pdf_file w) = Returned (extracted env pdf_file).
Proof.
  rewrite extract_text_from_pdf_spec. unfold extracted.
  destruct (fitz_open env pdf_file) as [e|pages]; [reflexivity|].
  destruct (first_page_error pages); reflexivity.
Qed.

Lemma short_text_is_not_enough (t : pystr) :
  List.length (strip t) <= 50 -> enough_text (Some t) = false.
Proof.
  intros H. unfold enough_text.
  destruct (Nat.ltb_spec 50 (List.length (strip t))); [lia|].
  apply andb_false_r.
Qed.

(** C3. When the extractor returns the failure signal, or a text whose
    length after [strip()] is at most 50, the run of the script ends with
    the warning about insufficient text as its last output; it makes no
    HTTP call: the call count is unchanged and no request is among the
    events of the run. *)
Theorem insufficient_text_halts_before_network (pdf_file : list byte) (w : world) :
  API_KEY env <> [] ->
  (extracted env pdf_file = None \/
   exists t, extracted env pdf_file = Some t /\ List.length (strip t) <= 50) ->
  exists evs,
    fst (script env (Some pdf_file) w) = Returned tt /\
    http_calls (snd (script env (Some pdf_file) w)) = http_calls w /\
    events (snd (script env (Some pdf_file) w))
    = events w ++ evs ++ [StWarning INSUFFICIENT_TEXT] /\
    forallb (fun ev => negb (is_request ev)) (evs ++ [StWarning INSUFFICIENT_TEXT]) = true.
Proof.
  intros Hkey Hshort.
  unfold script, bind. rewrite !emit_extend, extend_extend.
  destruct (API_KEY env) as [|c key] eqn:Hk; [contradiction|]. cbn [truthy negb].
  set (w0 := extend _ w).
  rewrite (surjective_pairing (extract_text_from_pdf env pdf_file w0)).
  rewrite extract_returns_extracted.
  assert (Hw : exists errs,
             snd (extract_text_from_pdf env pdf_file w0)
             = mkWorld (http_calls w) (open_docs (snd (extract_text_from_pdf env pdf_file w0)))
                       (events w ++ [TITLE; INTRO] ++ errs) /\
             forallb (fun ev => negb (is_request ev)) errs = true).
  { rewrite extract_text_from_pdf_spec.
    destruct (fitz_open env pdf_file) as [e|pages].
    - exists [reading_error e]. split; [|reflexivity].
      subst w0. simpl. now rewrite <- app_assoc.
    - destruct (first_page_error pages) as [e|].
      + exists [reading_error e]. split; [|reflexivity].
        subst w0. simpl. now rewrite <- app_assoc.
      + exists []. split; reflexivity. }
  destruct Hw as (errs & Hw & Herrs).
  exists ([TITLE; INTRO] ++ errs).
  assert (Hwarn : forall w1, st_warning INSUFFICIENT_TEXT w1
                             = (Returned tt, extend [StWarning INSUFFICIENT_TEXT] w1))
    by reflexivity.
  destruct Hshort as [Hnone|(t & Hsome & Hlen)].
  - rewrite Hnone, Hwarn, Hw. simpl.
    repeat split; [now rewrite <- !app_assoc|].
    rewrite forallb_app, Herrs. reflexivity.
  - rewrite Hsome, (short_text_is_not_enough _ Hlen), Hwarn, Hw. simpl.
    repeat split; [now rewrite <- !app_assoc|].
    rewrite forallb_app, Herrs. reflexivity.
Qed.

End Pipeline.

(** An upload PyMuPDF refuses, and a document with twelve characters and
    surrounding blanks: in both runs the warning comes last and the
    network is not used. *)
Lemma insufficient_text_halts_before_network_witness :
  let env1 := Demo.env (OpenRaises Demo.corrupt) [Demo.ok (Demo.reply Demo.analysis)] in
  let env2 := Demo.env (Opened [PageText (py "  Hello, world  ")])
                       [Demo.ok (Demo.reply Demo.analysis)] in
  (exists evs,
     fst (script env1 (Some []) initial_world) = Returned tt /\
     http_calls (snd (script env1 (Some []) initial_world)) = 0 /\
     events (snd (script env1 (Some []) initial_world))
     = [] ++ evs ++ [StWarning INSUFFICIENT_TEXT] /\
     forallb (fun ev => negb (is_request ev)) (evs ++ [StWarning INSUFFICIENT_TEXT]) = true)
  /\
  (exists evs,
     fst (script env2 (Some []) initial_world) = Returned tt /\
     http_calls (snd (script env2 (Some []) initial_world)) = 0 /\
     events (snd (script env2 (Some []) initial_world))
     = [] ++ evs ++ [StWarning INSUFFICIENT_TEXT] /\
     forallb (fun ev => negb (is_request ev)) (evs ++ [StWarning INSUFFICIENT_TEXT]) = true).
Proof.
  intros env1 env2. split.
  - apply (@insufficient_text_halts_before_network env1 [] initial_world).
    + discriminate.
    + left. reflexivity.
  - apply (@insufficient_text_halts_before_network env2 [] initial_world).
    + discriminate.
    + right. exists (py "  Hello, world  "). split; [reflexivity|].
      vm_compute. repeat constructor.
Defined.

(* ------------------------------------------------------------------ *)
(** ** Properties of the Result Presenter *)

Section Presenter.

Variable env : collaborators.

Lemma present_sentiment_str (d : list (pystr * value)) (s : pystr) (w : world) :
  dict_get (py "sentiment") (VStr (py "N/A")) (VDict d) = Returned (VStr s) ->
  present_sentiment env (VDict d) w
  = (Returned tt, extend [SENTIMENT; sentiment_cue env s] w).
Proof.
  intros H. unfold present_sentiment, bind, lift. rewrite emit_extend, H.
  unfold lower, sentiment_cue, cue_of_lowered, format.
  destruct (pystr_eqb (str_lower env s) (py "positive")).
  - now rewrite emit_extend, extend_extend.
  - destruct (pystr_eqb (str_lower env s) (py "negative"));
      now rewrite emit_extend, extend_extend.
Qed.

Lemma ascii_lower_is_ascii (a b : N) :
  ascii_lower a = ascii_lower b -> is_ascii b = true -> is_ascii a = true.
Proof.
  unfold ascii_lower, is_ascii.
  destruct ((65 <=? a)%N && (a <=? 90)%N) eqn:Ha;
    destruct ((65 <=? b)%N && (b <=? 90)%N) eqn:Hb;
    rewrite ?andb_true_iff, ?andb_false_iff, ?N.leb_le, ?N.leb_gt in *;
    rewrite !N.ltb_lt; lia.
Qed.

(** On a string equal up to case to an ASCII string, [lower()] follows
    the ASCII rule. *)
Lemma str_lower_same_up_to_case (s t : pystr) :
  same_up_to_case s t ->
  forallb is_ascii t = true ->
  str_lower env s = map ascii_lower t.
Proof.
  intros H Ht. unfold str_lower.
  assert (forallb is_ascii s = true /\ map ascii_lower s = map ascii_lower t) as [-> ->];
    [|reflexivity].
  induction H as [|a b s t Hab H IH]; [now split|].
  simpl in Ht. apply andb_true_iff in Ht. destruct Ht as [Hb Ht].
  destruct (IH Ht) as [IH1 IH2]. simpl. split.
  - now rewrite (ascii_lower_is_ascii _ _ Hab Hb), IH1.
  - now rewrite Hab, IH2.
Qed.

Lemma ascii_lower_idempotent (a : N) : ascii_lower (ascii_lower a) = ascii_lower a.
Proof.
  unfold ascii_lower.
  destruct ((65 <=? a)%N && (a <=? 90)%N) eqn:Ha; [|now rewrite Ha].
  apply andb_true_iff in Ha. destruct Ha as [H1 H2].
  apply N.leb_le in H1, H2.
  destruct (N.leb_spec (a + 32) 90); [lia|]. now rewrite andb_false_r.
Qed.

(** An ASCII string whose lower-cased form is [t] is [t] up to case. *)
Lemma str_lower_ascii_same_up_to_case (s t : pystr) :
  forallb is_ascii s = true ->
  str_lower env s = t ->
  same_up_to_case s t.
Proof.
  intros Hs <-. unfold str_lower. rewrite Hs. clear Hs.
  induction s as [|a s IH]; constructor; [|exact IH].
  symmetry. apply ascii_lower_idempotent.
Qed.

(** The cue as a function of the lower-cased sentiment. *)
Lemma cue_of_lowered_facts (s : pystr) :
  (same_up_to_case s (py "positive") ->
   cue_of_lowered (str_lower env s) = "green"%string)
  /\
  (same_up_to_case s (py "negative") ->
   cue_of_lowered (str_lower env s) = "red"%string)
  /\
  (str_lower env s <> py "positive" ->
   str_lower env s <> py "negative" ->
   cue_of_lowered (str_lower env s) = "orange"%string)
  /\
  (cue_of_lowered (str_lower env s) = "green"%string \/
   cue_of_lowered (str_lower env s) = "red"%string \/
   cue_of_lowered (str_lower env s) = "orange"%string).
Proof.
  split; [|split; [|split]].
  - intros H. now rewrite (str_lower_same_up_to_case H eq_refl).
  - intros H. now rewrite (str_lower_same_up_to_case H eq_refl).
  - intros Hp Hn. unfold cue_of_lowered.
    destruct (pystr_eqb (str_lower env s) (py "positive")) eqn:E1;
      [apply pystr_eqb_eq in E1; contradiction|].
    destruct (pystr_eqb (str_lower env s) (py "negative")) eqn:E2;
      [apply pystr_eqb_eq in E2; contradiction|reflexivity].
  - unfold cue_of_lowered.
    destruct (pystr_eqb (str_lower env s) (py "positive")); [now left|].
    destruct (pystr_eqb (str_lower env s) (py "negative")); [right; now left|].
    right; now right.
Qed.

Lemma reads_sentiment_get (d : list (pystr * value)) (s : pystr) :
  reads_sentiment d s ->
  dict_get (py "sentiment") (VStr (py "N/A")) (VDict d) = Returned (VStr s).
Proof.
  unfold reads_sentiment. simpl.
  destruct (dict_lookup (py "sentiment") d); now intros ->.
Qed.

(** What the display shows for a sentiment whose cue is known. *)
Lemma present_sentiment_shown (d : list (pystr * value)) (s : pystr) (w : world) :
  reads_sentiment d s ->
  (cue_of_lowered (str_lower env s) = "green"%string ->
   present_sentiment env (VDict d) w = shown_in GREEN s w)
  /\
  (cue_of_lowered (str_lower env s) = "red"%string ->
   present_sentiment env (VDict d) w = shown_in RED s w)
  /\
  (cue_of_lowered (str_lower env s) = "orange"%string ->
   present_sentiment env (VDict d) w = shown_in ORANGE s w).
Proof.
  intros Hr. apply reads_sentiment_get in Hr.
  rewrite (@present_sentiment_str d s w Hr). unfold sentiment_cue.
  repeat split; intros ->; reflexivity.
Qed.

(** C7. The colour of the sentiment is a function of the sentiment up to
    case.  For an object whose sentiment reads as the string [s], the
    display shows, under the sentiment heading, [s] itself inside the
    tag of one colour: green when [s] is "positive" up to case, red when
    it is "negative" up to case, orange whenever its lower-cased form is
    neither (for an ASCII string: whenever it is neither up to case).
    Two sentiments with the same lower-cased form get the same colour.
    "Positive", "POSITIVE" and "positive" are all shown green; "neutral",
    an unrecognized word and the default "N/A" are shown orange. *)
Theorem sentiment_colour_mapping (w : world) :
  (forall d s,
      reads_sentiment d s ->
      same_up_to_case s (py "positive") ->
      present_sentiment env (VDict d) w = shown_in GREEN s w)
  /\
  (forall d s,
      reads_sentiment d s ->
      same_up_to_case s (py "negative") ->
      present_sentiment env (VDict d) w = shown_in RED s w)
  /\
  (forall d s,
      reads_sentiment d s ->
      str_lower env s <> py "positive" ->
      str_lower env s <> py "negative" ->
      present_sentiment env (VDict d) w = shown_in ORANGE s w)
  /\
  (forall d s,
      reads_sentiment d s ->
      forallb is_ascii s = true ->
      ~ same_up_to_case s (py "positive") ->
      ~ same_up_to_case s (py "negative") ->
      present_sentiment env (VDict d) w = shown_in ORANGE s w)
  /\
  (forall d1 s1 d2 s2,
      reads_sentiment d1 s1 ->
      reads_sentiment d2 s2 ->
      str_lower env s1 = str_lower env s2 ->
      exists opening,
        In opening [GREEN; RED; ORANGE] /\
        present_sentiment env (VDict d1) w = shown_in opening s1 w /\
        present_sentiment env (VDict d2) w = shown_in opening s2 w)
  /\
  (forall d s,
      reads_sentiment d s ->
      In s [py "Positive"; py "POSITIVE"; py "positive"] ->
      present_sentiment env (VDict d) w = shown_in GREEN s w)
  /\
  (forall d s,
      reads_sentiment d s ->
      In s [py "neutral"; py "Neutral"; py "Mixed"; py "N/A"] ->
      present_sentiment env (VDict d) w = shown_in ORANGE s w).
Proof.
  split; [|split; [|split; [|split; [|split; [|split]]]]].
  - intros d s Hr H.
    apply (proj1 (@present_sentiment_shown d s w Hr)).
    now apply (proj1 (cue_of_lowered_facts s)).
  - intros d s Hr H.
    apply (proj1 (proj2 (@present_sentiment_shown d s w Hr))).
    now apply (proj1 (proj2 (cue_of_lowered_facts s))).
  - intros d s Hr Hp Hn.
    apply (proj2 (proj2 (@present_sentiment_shown d s w Hr))).
    now apply (proj1 (proj2 (proj2 (cue_of_lowered_facts s)))).
  - intros d s Hr Hs Hp Hn.
    apply (proj2 (proj2 (@present_sentiment_shown d s w Hr))).
    apply (proj1 (proj2 (proj2 (cue_of_lowered_facts s)))); intros H.
    + apply Hp. now apply str_lower_ascii_same_up_to_case.
    + apply Hn. now apply str_lower_ascii_same_up_to_case.
  - intros d1 s1 d2 s2 H1 H2 Heq.
    destruct (@present_sentiment_shown d1 s1 w H1) as (G1 & R1 & O1).
    destruct (@present_sentiment_shown d2 s2 w H2) as (G2 & R2 & O2).
    rewrite <- Heq in G2, R2, O2.
    destruct (proj2 (proj2 (proj2 (cue_of_lowered_facts s1)))) as [C|[C|C]].
    + exists GREEN. simpl. auto.
    + exists RED. simpl. auto.
    + exists ORANGE. simpl. auto 6.
  - intros d s Hr Hin.
    apply (proj1 (@present_sentiment_shown d s w Hr)).
    simpl in Hin. destruct Hin as [<-|[<-|[<-|[]]]]; reflexivity.
  - intros d s Hr Hin.
    apply (proj2 (proj2 (@present_sentiment_shown d s w Hr))).
    simpl in Hin. destruct Hin as [<-|[<-|[<-|[<-|[]]]]]; reflexivity.
Qed.

End Presenter.

(** The three spellings of the claim, a shouted "NEGATIVE", and an object
    without the field. *)
Lemma sentiment_colour_mapping_witness :
  let env := Demo.env (OpenRaises Demo.corrupt) [] in
  let says (s : string) := [(py "sentiment", VStr (py s))] in
  present_sentiment env (VDict (says "Positive"%string)) initial_world
  = shown_in GREEN (py "Positive") initial_world /\
  present_sentiment env (VDict (says "POSITIVE"%string)) initial_world
  = shown_in GREEN (py "POSITIVE") initial_world /\
  present_sentiment env (VDict (says "positive"%string)) initial_world
  = shown_in GREEN (py "positive") initial_world /\
  present_sentiment env (VDict (says "NEGATIVE"%string)) initial_world
  = shown_in RED (py "NEGATIVE") initial_world /\
  present_sentiment env (VDict [(py "summary", VStr (py "A short report."))]) initial_world
  = shown_in ORANGE (py "N/A") initial_world.
Proof.
  intros env says.
  pose proof (sentiment_colour_mapping env initial_world)
    as (Hpos & Hneg & Hother & _).
  split; [|split; [|split; [|split]]].
  - apply Hpos; [reflexivity|repeat constructor].
  - apply Hpos; [reflexivity|repeat constructor].
  - apply Hpos; [reflexivity|repeat constructor].
  - apply Hneg; [reflexivity|repeat constructor].
  - apply Hother; [reflexivity|vm_compute; discriminate|vm_compute; discriminate].
Defined.

(* ------------------------------------------------------------------ *)
(** ** The keyword display *)

Lemma extend_nil (w : world) : extend [] w = w.
Proof. destruct w. unfold extend. simpl. now rewrite app_nil_r. Qed.

Lemma show_keywords_spec (keywords : list value) :
  forall i w,
    show_keywords i keywords w = (Returned tt, extend (keyword_items i keywords) w).
Proof.
  induction keywords as [|k rest IH]; intros i w; simpl.
  - now rewrite extend_nil.
  - unfold bind. now rewrite emit_extend, IH, extend_extend.
Qed.

(** The i-th item shows the i-th keyword, in column i. *)
Lemma keyword_items_nth (keywords : list value) :
  forall i j,
    nth_error (keyword_items i keywords) j
    = option_map (fun k => InColumn (i + j) (StInfo k)) (nth_error keywords j).
Proof.
  induction keywords as [|k rest IH]; intros i [|j]; simpl; try reflexivity.
  - now rewrite Nat.add_0_r.
  - rewrite IH. now rewrite Nat.add_succ_r.
Qed.

Lemma keyword_items_length (keywords : list value) :
  forall i, List.length (keyword_items i keywords) = List.length keywords.
Proof.
  induction keywords as [|k rest IH]; intros i; simpl; [reflexivity|].
  now rewrite IH.
Qed.

Section Keywords.

Variable env : collaborators.

Lemma present_keywords_spec (d : list (pystr * value)) (w : world) :
  field_ok is_str_list (py "keywords") d = true ->
  present_keywords (VDict d) w = (Returned tt, extend (keywords_block d) w).
Proof.
  unfold field_ok, present_keywords, keywords_block, bind, lift, dict_get.
  rewrite emit_extend.
  destruct (dict_lookup (py "keywords") d) as [v|]; intros Hok.
  - destruct v as [| | | | |l|]; try discriminate.
    destruct l as [|k ks].
    + cbn [truthy]. unfold st_write. now rewrite emit_extend, extend_extend.
    + cbn [truthy py_len py_iter]. rewrite emit_extend, show_keywords_spec.
      now rewrite !extend_extend.
  - cbn [truthy]. unfold st_write. now rewrite emit_extend, extend_extend.
Qed.

(** The whole display of a well-formed result. *)
Lemma present_spec (d : list (pystr * value)) (w : world) :
  well_formed d ->
  present env (VDict d) w
  = (Returned tt, extend (summary_block d ++ keywords_block d ++ details_block env d) w).
Proof.
  intros (Hsum & Hkey & Hsen & Hlang).
  unfold present, bind, lift, st_write.
  rewrite !emit_extend. cbn [dict_get]. rewrite emit_extend.
  rewrite (@present_keywords_spec d _ Hkey). rewrite !emit_extend.
  assert (Hs : dict_get (py "sentiment") (VStr (py "N/A")) (VDict d)
               = Returned (VStr (sentiment_of d))).
  { unfold field_ok in Hsen. unfold sentiment_of. simpl.
    destruct (dict_lookup (py "sentiment") d) as [v|]; [|reflexivity].
    destruct v; try discriminate. reflexivity. }
  rewrite (@present_sentiment_str env d _ _ Hs).
  rewrite !extend_extend. unfold summary_block, details_block.
  repeat rewrite <- app_assoc. reflexivity.
Qed.

(** X18.  For a well-formed and non-empty analysis result, the
    display does not raise.  When the result has no [keywords] field, or
    an empty list, the "Key Topics" heading is followed by the message
    that no keywords were extracted.  When the list is not empty, the
    heading is followed by as many columns as there are keywords and by
    one highlighted item per keyword, the i-th keyword in column i. *)
Theorem keywords_display (d : list (pystr * value)) (w : world) :
  d <> [] ->
  well_formed d ->
  (dict_lookup (py "keywords") d = None \/
   dict_lookup (py "keywords") d = Some (VList []) ->
   display env (VDict d) w
   = (Returned tt,
      extend (summary_block d ++ [KEY_TOPICS; NO_KEYWORDS] ++ details_block env d) w))
  /\
  (forall keywords,
      dict_lookup (py "keywords") d = Some (VList keywords) ->
      keywords <> [] ->
      display env (VDict d) w
      = (Returned tt,
         extend (summary_block d
                 ++ [KEY_TOPICS; StColumns (List.length keywords)]
                 ++ keyword_items 0 keywords
                 ++ details_block env d) w)
      /\ List.length (keyword_items 0 keywords) = List.length keywords
      /\ forall i keyword,
          nth_error keywords i = Some keyword ->
          nth_error (keyword_items 0 keywords) i = Some (InColumn i (StInfo keyword))).
Proof.
  intros Hne Hwf.
  assert (Hd : display env (VDict d) w = present env (VDict d) w).
  { unfold display. destruct d; [contradiction|reflexivity]. }
  rewrite Hd, (@present_spec d w Hwf). unfold keywords_block. split.
  - intros [-> | ->]; reflexivity.
  - intros keywords -> Hk. destruct keywords as [|k ks]; [contradiction|].
    split; [reflexivity|]. split.
    + apply keyword_items_length.
    + intros i keyword Hi. now rewrite keyword_items_nth, Hi.
Qed.

End Keywords.

(** A result with three fields and no [keywords], and the demo result
    with its two keywords. *)
Lemma keywords_display_witness :
  let env := Demo.env (OpenRaises Demo.corrupt) [] in
  let d := [(py "summary", VStr (py "A short report."));
            (py "sentiment", VStr (py "Neutral"));
            (py "language", VStr (py "English"))] in
  let d2 := [(py "keywords", VList [VStr (py "alpha"); VStr (py "beta")])] in
  display env (VDict d) initial_world
  = (Returned tt,
     extend (summary_block d ++ [KEY_TOPICS; NO_KEYWORDS] ++ details_block env d)
            initial_world)
  /\
  display env (VDict d2) initial_world
  = (Returned tt,
     extend (summary_block d2
             ++ [KEY_TOPICS; StColumns 2]
             ++ [InColumn 0 (StInfo (VStr (py "alpha")));
                 InColumn 1 (StInfo (VStr (py "beta")))]
             ++ details_block env d2) initial_world).
Proof.
  intros env d d2. split.
  - refine (proj1 (@keywords_display env d initial_world _ _) _).
    + discriminate.
    + repeat split.
    + left. reflexivity.
  - refine (proj1 (proj2 (@keywords_display env d2 initial_world _ _) _ eq_refl _)).
    + discriminate.
    + repeat split.
    + discriminate.
Defined.

(** C8, at a failing input: the empty object.  It is well-formed and has
    no [keywords]; it is falsy, so line 118 skips the whole display and
    the message is not shown.  An object with one field and no
    [keywords] does get the message. *)
Theorem empty_object_is_not_displayed :
  let env := Demo.env (OpenRaises Demo.corrupt) [] in
  let one := [(py "summary", VStr (py "A short report."))] in
  (well_formed [] /\
   dict_lookup (py "keywords") [] = None /\
   display env (VDict []) initial_world = (Returned tt, initial_world))
  /\
  (well_formed one /\
   dict_lookup (py "keywords") one = None /\
   In (StWrite (VStr (py "No keywords were extracted.")) false)
      (events (snd (display env (VDict one) initial_world)))).
Proof.
  intros env one. split; [repeat split|].
  split; [repeat split|]. split; [reflexivity|].
  vm_compute. tauto.
Qed.

(* ------------------------------------------------------------------ *)
(** ** Further properties of the Text Extractor *)

Lemma pages_text_of_texts (texts : list pystr) :
  pages_text (map PageText texts) = List.concat texts.
Proof.
  induction texts as [|t rest IH]; simpl; [reflexivity|now rewrite IH].
Qed.

Lemma first_page_error_of_texts (texts : list pystr) :
  first_page_error (map PageText texts) = None.
Proof.
  induction texts as [|t rest IH]; simpl; [reflexivity|exact IH].
Qed.

(** X1. When PyMuPDF opens the upload and renders every page, the
    extractor returns the page texts concatenated in page order, with no
    separator of its own, and leaves the world as it found it: the
    document is closed again, nothing is displayed, the network is not
    used.  A document without pages gives the empty string, not [None]. *)
Theorem extract_concatenates_pages
        (env : collaborators) (pdf_file : list byte) (texts : list pystr) (w : world) :
  fitz_open env pdf_file = Opened (map PageText texts) ->
  extract_text_from_pdf env pdf_file w = (Returned (Some (List.concat texts)), w).
Proof.
  intros Ho.
  rewrite extract_text_from_pdf_spec, Ho, first_page_error_of_texts, pages_text_of_texts.
  now destruct w.
Qed.

(** A document of two pages, and one without pages. *)
Lemma extract_concatenates_pages_witness :
  let two := Demo.env (Opened (map PageText [py "first page "; py "second page"])) [] in
  let none := Demo.env (Opened (map PageText [])) [] in
  extract_text_from_pdf two [] initial_world
  = (Returned (Some (py "first page second page")), initial_world)
  /\
  extract_text_from_pdf none [] initial_world = (Returned (Some []), initial_world).
Proof.
  intros two none. split.
  - exact (@extract_concatenates_pages two [] [py "first page "; py "second page"]
             initial_world eq_refl).
  - exact (@extract_concatenates_pages none [] [] initial_world eq_refl).
Defined.

(* ------------------------------------------------------------------ *)
(** ** Further properties of the Analysis Client *)

Section ClientRuns.

Variable env : collaborators.

(** X2. Every run of the client, whatever the network and the parsers
    do, sends one, two or three requests, all with the same body; between
    them it sleeps 1 and then 2 and never otherwise; after the last
    request it shows at most one [st.error]; it shows nothing else and
    leaves the PDF handles alone. *)
Theorem client_run_shape (text : pystr) (w : world) :
  exists k tail,
    1 <= k <= 3 /\
    quiet tail /\
    snd (analyze_text_with_gemini env text w)
    = mkWorld (k + http_calls w) (open_docs w)
              (events w
               ++ attempts_trace (request env (json_dumps env (payload text))) k
               ++ tail).
Proof.
  destruct (analyze_run_ends env text w)
    as [o tail Hq d _|o tail e0 Hq d _ _|o tail e0 e1 Hq d _ _]; subst d.
  - exists 1, tail. repeat split; [lia|lia|exact Hq].
  - exists 2, tail. repeat split; [lia|lia|exact Hq].
  - exists 3, tail. repeat split; [lia|lia|exact Hq].
Qed.

(** X6. The loop of line 69 never runs out: the third iteration returns
    or raises, so the [return None] of line 92 is never reached.
    Whatever stood after the loop, the client would behave the same. *)
Theorem loop_never_falls_through (text : pystr) (after : M value) (w : world) :
  for_each (range 3) (attempt env (json_dumps env (payload text))) after w
  = analyze_text_with_gemini env text w.
Proof.
  unfold analyze_text_with_gemini, range. cbn [seq].
  set (data := json_dumps env (payload text)).
  rewrite !(for_each_cons 0).
  destruct (attempt_ends_holds env data 0 w) as [e0 _ _|e0 _ Hi|v _|msg _|e _ _];
    try reflexivity.
  rewrite !(for_each_cons 1).
  match goal with |- context [attempt env data 1 ?w1] =>
    destruct (attempt_ends_holds env data 1 w1) as [e1 _ _|e1 _ Hi|v _|msg _|e _ _]
  end; try reflexivity.
  rewrite !(for_each_cons 2).
  match goal with |- context [attempt env data 2 ?w2] =>
    destruct (attempt_ends_holds env data 2 w2) as [e2 _ Hi|e2 _ _|v _|msg _|e _ _]
  end; try reflexivity. lia.
Qed.

Lemma retry_after_request_error (data : pystr) (i : nat) (w : world) (e : exn) :
  request_error env (requests_post env (http_calls w) data) = Some e ->
  i < 2 ->
  attempt env data i w
  = (Returned Continue, said (Sleep (2 ^ Z.of_nat i)) (posted env data w)).
Proof.
  intros H Hi. rewrite (@attempt_request_error env data i w e H).
  apply handler_retry; [exact (request_error_is_RequestException _ _ H)|exact Hi].
Qed.

Lemma give_up_after_request_error (data : pystr) (w : world) (e : exn) :
  request_error env (requests_post env (http_calls w) data) = Some e ->
  attempt env data 2 w
  = (Returned (Return VNone), said (gave_up e) (posted env data w)).
Proof.
  intros H. rewrite (@attempt_request_error env data 2 w e H).
  apply handler_give_up; [exact (request_error_is_RequestException _ _ H)|lia].
Qed.

(** X4. An answer is returned at once.  When the first response is one
    the client accepts, the run is one request: no sleep, no message.
    When the first attempt raises a RequestException and the second
    response is accepted, the run is two requests with the sleep of 1
    between them. *)
Theorem answer_is_returned_at_once (text : pystr) (w : world) :
  let data := json_dumps env (payload text) in
  let n := http_calls w in
  (forall r v,
      requests_post env n data = PostReturns r ->
      answers env r v ->
      analyze_text_with_gemini env text w
      = (Returned v,
         mkWorld (1 + n) (open_docs w) (events w ++ [request env data])))
  /\
  (forall e0 r v,
      request_error env (requests_post env n data) = Some e0 ->
      requests_post env (1 + n) data = PostReturns r ->
      answers env r v ->
      analyze_text_with_gemini env text w
      = (Returned v,
         mkWorld (2 + n) (open_docs w)
                 (events w ++ [request env data; Sleep 1; request env data]))).
Proof.
  intros data n. subst n.
  unfold analyze_text_with_gemini, range. cbn [seq]. fold data. split.
  - intros r v Hp Hv.
    rewrite for_each_cons, (@attempt_answers env data 0 w r v Hp Hv). reflexivity.
  - intros e0 r v H0 Hp Hv.
    rewrite for_each_cons, (@retry_after_request_error data 0 w e0 H0) by lia.
    rewrite for_each_cons.
    match goal with |- context [attempt env data 1 ?w1] =>
      rewrite (@attempt_answers env data 1 w1 r v Hp Hv)
    end.
    unfold said, posted. simpl. repeat rewrite <- app_assoc. reflexivity.
Qed.

(** X5. A body that [response.json()] cannot decode is retried like a
    transport failure, whatever its status: requests raises its own
    JSONDecodeError, a RequestException, and the first except clause takes
    it.  Three such responses end the run like three refused connections:
    three requests, sleeps of 1 and 2, and the message about failing to
    connect, followed by the text of the decoder's error; the message
    about parsing is not shown. *)
Theorem undecodable_body_is_retried (text : pystr) (w : world) (r0 r1 r2 : response) :
  let data := json_dumps env (payload text) in
  let n := http_calls w in
  requests_post env n data = PostReturns r0 ->
  requests_post env (1 + n) data = PostReturns r1 ->
  requests_post env (2 + n) data = PostReturns r2 ->
  success_status r0 -> success_status r1 -> success_status r2 ->
  json_loads env (body r0) = None ->
  json_loads env (body r1) = None ->
  json_loads env (body r2) = None ->
  exists decoder_says,
    analyze_text_with_gemini env text w
    = (Returned VNone,
       mkWorld (3 + n) (open_docs w)
               (events w ++ [request env data; Sleep 1; request env data; Sleep 2;
                             request env data;
                             StError (py "Failed to connect to the AI model after several retries: "
                                      ++ decoder_says)])).
Proof.
  intros data n Hp0 Hp1 Hp2 Hs0 Hs1 Hs2 Hb0 Hb1 Hb2. subst n.
  exists (exn_msg (mkExn ReqJSONDecodeError (py "Expecting value"))).
  assert (Herr : forall k r,
             requests_post env k data = PostReturns r ->
             success_status r -> json_loads env (body r) = None ->
             request_error env (requests_post env k data)
             = Some (mkExn ReqJSONDecodeError (py "Expecting value"))).
  { intros k r Hp Hs Hb. rewrite Hp. unfold request_error.
    now rewrite (success_status_no_error Hs), Hb. }
  unfold analyze_text_with_gemini, range. cbn [seq]. fold data.
  rewrite for_each_cons, (@retry_after_request_error data 0 w _ (Herr _ _ Hp0 Hs0 Hb0)) by lia.
  rewrite for_each_cons.
  match goal with |- context [attempt env data 1 ?w1] =>
    rewrite (@retry_after_request_error data 1 w1 _ (Herr _ _ Hp1 Hs1 Hb1)) by lia
  end.
  rewrite for_each_cons.
  match goal with |- context [attempt env data 2 ?w2] =>
    rewrite (@give_up_after_request_error data w2 _ (Herr _ _ Hp2 Hs2 Hb2))
  end.
  unfold said, posted. simpl. repeat rewrite <- app_assoc. reflexivity.
Qed.

End ClientRuns.

(** An answer at the first attempt, and one after a 200 response that is
    a web page. *)
Lemma answer_is_returned_at_once_witness :
  let pdf := OpenRaises Demo.corrupt in
  let page := PostReturns (mkResponse 200 (py "<html>Bad gateway</html>")) in
  let env1 := Demo.env pdf [Demo.ok (Demo.reply Demo.analysis)] in
  let env2 := Demo.env pdf [page; Demo.ok (Demo.reply Demo.analysis)] in
  let text := py "hello" in
  let req := request env1 (Demo.dumps (payload text)) in
  analyze_text_with_gemini env1 text initial_world
  = (Returned Demo.analysis, mkWorld 1 0 [req])
  /\
  analyze_text_with_gemini env2 text initial_world
  = (Returned Demo.analysis, mkWorld 2 0 [req; Sleep 1; req]).
Proof.
  intros pdf page env1 env2 text req. split.
  - refine (proj1 (answer_is_returned_at_once env1 text initial_world)
                  _ Demo.analysis eq_refl _).
    apply demo_answers. lia.
  - refine (proj2 (answer_is_returned_at_once env2 text initial_world)
                  (mkExn ReqJSONDecodeError (py "Expecting value")) _ Demo.analysis
                  _ eq_refl _).
    + vm_compute. reflexivity.
    + apply demo_answers. lia.
Defined.

(** Three 200 responses that are web pages. *)
Lemma undecodable_body_is_retried_witness :
  let page := mkResponse 200 (py "<html>Bad gateway</html>") in
  let env := Demo.env (OpenRaises Demo.corrupt)
                      [PostReturns page; PostReturns page; PostReturns page] in
  let text := py "hello" in
  let req := request env (Demo.dumps (payload text)) in
  exists decoder_says,
    analyze_text_with_gemini env text initial_world
    = (Returned VNone,
       mkWorld 3 0 ([] ++ [req; Sleep 1; req; Sleep 2; req;
                           StError (py "Failed to connect to the AI model after several retries: "
                                    ++ decoder_says)])).
Proof.
  intros page env text req.
  apply (@undecodable_body_is_retried env text initial_world page page page);
    try reflexivity; unfold success_status; simpl; lia.
Defined.

(** A 200 response with the body [null], followed by a good answer that
    is never asked for. *)
Lemma decoded_response_ends_run_witness :
  let env := Demo.env (OpenRaises Demo.corrupt)
                      [Demo.ok VNone; Demo.ok (Demo.reply Demo.analysis)] in
  let data := json_dumps env (payload (py "hello")) in
  exists o tail,
    for_each [0; 1; 2] (attempt env data) (ret VNone) initial_world
    = (o, mkWorld 1 0 ([] ++ request env data :: tail)) /\
    quiet tail /\
    forall e, o = Raised e -> is_RequestException e = false.
Proof.
  intros env data.
  apply (@decoded_response_ends_run env data 0 [1; 2] (ret VNone) initial_world
           (mkResponse 200 (Demo.dumps VNone)) VNone).
  - reflexivity.
  - unfold success_status; simpl; lia.
  - vm_compute. reflexivity.
Defined.

(* ------------------------------------------------------------------ *)
(** ** Computations that stay off the network *)

Lemma no_request_app (a b : list event) :
  no_request (a ++ b) = no_request a && no_request b.
Proof. apply forallb_app. Qed.

Lemma offline_ret {A} (a : A) : offline (ret a).
Proof. intros w. exists []. now rewrite extend_nil. Qed.

Lemma offline_lift {A} (o : outcome A) : offline (lift o).
Proof. intros w. exists []. now rewrite extend_nil. Qed.

Lemma offline_emit (ev : event) : is_request ev = false -> offline (emit ev).
Proof.
  intros H w. exists [ev]. split; [reflexivity|].
  unfold no_request. simpl. now rewrite H.
Qed.

Lemma offline_bind {A B} (m : M A) (k : A -> M B) :
  offline m -> (forall a, offline (k a)) -> offline (bind m k).
Proof.
  intros Hm Hk w. unfold bind.
  destruct (Hm w) as (evs & Hw & Hn).
  destruct (m w) as [[a|e] w1]; simpl in Hw; subst w1.
  - destruct (Hk a (extend evs w)) as (evs' & Hw' & Hn').
    exists (evs ++ evs'). rewrite Hw', extend_extend. split; [reflexivity|].
    now rewrite no_request_app, Hn, Hn'.
  - exists evs. now split.
Qed.

Lemma offline_show_keywords (keywords : list value) :
  forall i, offline (show_keywords i keywords).
Proof.
  induction keywords as [|k rest IH]; intros i; simpl.
  - apply offline_ret.
  - apply offline_bind; [now apply offline_emit|intros _; apply IH].
Qed.

Ltac offline_steps :=
  repeat first
         [ apply offline_ret
         | apply offline_lift
         | apply offline_emit; reflexivity
         | apply offline_show_keywords
         | apply offline_bind; [|intros ?] ].

Lemma offline_present_keywords (v : value) : offline (present_keywords v).
Proof.
  unfold present_keywords, st_write. offline_steps.
  match goal with |- offline (if ?c then _ else _) => destruct c end;
    offline_steps.
Qed.

Lemma offline_present_sentiment (env : collaborators) (v : value) :
  offline (present_sentiment env v).
Proof.
  unfold present_sentiment. offline_steps.
  repeat (match goal with |- offline (if ?c then _ else _) => destruct c end;
          offline_steps).
Qed.

Lemma offline_display (env : collaborators) (v : value) : offline (display env v).
Proof.
  unfold display. destruct (truthy v); [|apply offline_ret].
  unfold present, st_write.
  repeat first
         [ apply offline_present_keywords
         | apply offline_present_sentiment
         | apply offline_lift
         | apply offline_emit; reflexivity
         | apply offline_bind; [|intros ?] ].
Qed.

(* ------------------------------------------------------------------ *)
(** ** Further properties of the pipeline *)

Lemma lstrip_blank (t : pystr) : forallb is_space t = true -> lstrip t = [].
Proof.
  induction t as [|c t IH]; simpl; [reflexivity|].
  intros H. apply andb_true_iff in H. destruct H as [Hc Ht].
  rewrite Hc. now apply IH.
Qed.

Lemma strip_blank (t : pystr) : forallb is_space t = true -> strip t = [].
Proof.
  intros H. unfold strip, rstrip. now rewrite (lstrip_blank t H).
Qed.

Section PipelineRuns.

Variable env : collaborators.

(** The script once the extractor has returned a text. *)
Lemma script_with_text (pdf_file : list byte) (t : pystr) (w : world) :
  API_KEY env <> [] ->
  extracted env pdf_file = Some t ->
  script env (Some pdf_file) w
  = (if enough_text (Some t)
     then bind (analyze_text_with_gemini env t) (display env)
     else st_warning INSUFFICIENT_TEXT) (extend [TITLE; INTRO] w).
Proof.
  intros Hkey Hx. unfold script, bind. rewrite !emit_extend, extend_extend.
  destruct (API_KEY env) as [|c key]; [contradiction|]. cbn [truthy negb].
  change ([StTitle (128196%N :: py " PDF Analysis Tool")] ++
          [StMarkdown (py "Upload a PDF to get an AI-powered summary, key topics, and sentiment analysis.")])
    with [TITLE; INTRO].
  set (w0 := extend [TITLE; INTRO] w).
  rewrite extract_text_from_pdf_spec. unfold extracted in Hx.
  destruct (fitz_open env pdf_file) as [e|pages]; [discriminate|].
  destruct (first_page_error pages); [discriminate|].
  injection Hx as ->.
  replace (mkWorld (http_calls w0) (open_docs w0) (events w0)) with w0
    by now destruct w0.
  unfold bind. reflexivity.
Qed.

Lemma long_text_is_enough (t : pystr) :
  50 < List.length (strip t) -> enough_text (Some t) = true.
Proof.
  intros H. unfold enough_text.
  destruct t as [|c t]; [simpl in H; lia|]. cbn [truthy andb].
  now apply Nat.ltb_lt.
Qed.

(** X7. One run of the script makes at most three HTTP calls and leaves
    at most one PDF document open, whatever is uploaded and whatever
    PyMuPDF, the network and the parsers do, also when the display
    raises. *)
Theorem script_call_budget (uploaded_file : option (list byte)) (w : world) :
  http_calls (snd (script env uploaded_file w)) <= http_calls w + 3 /\
  open_docs (snd (script env uploaded_file w)) <= open_docs w + 1.
Proof.
  unfold script, bind. rewrite !emit_extend, extend_extend.
  destruct (truthy (VStr (API_KEY env))); cbn [negb]; [|simpl; lia].
  destruct uploaded_file as [pdf_file|]; [|simpl; lia].
  set (w0 := extend _ w).
  rewrite extract_text_from_pdf_spec.
  destruct (fitz_open env pdf_file) as [e|pages]; [simpl; lia|].
  destruct (first_page_error pages) as [e|]; [simpl; lia|].
  destruct (enough_text (Some (pages_text pages))); [|simpl; lia].
  set (w1 := mkWorld (http_calls w0) (open_docs w0) (events w0)).
  pose proof (analyze_run_ends env (pages_text pages) w1) as Hrun.
  destruct (analyze_text_with_gemini env (pages_text pages) w1) as [[v|e] w2].
  - destruct (offline_display env v w2) as (evs & Hd & _). rewrite Hd.
    inversion Hrun; subst; simpl; lia.
  - inversion Hrun; subst; simpl; lia.
Qed.

(** X9. A text of more than 50 characters after [strip()] always reaches
    the client, and it is sent as extracted, not as stripped: whatever
    the network does, the first things the run shows after its title are
    a request whose payload is built from the whole text. *)
Theorem enough_text_reaches_the_client (pdf_file : list byte) (t : pystr) (w : world) :
  API_KEY env <> [] ->
  extracted env pdf_file = Some t ->
  50 < List.length (strip t) ->
  exists evs,
    events (snd (script env (Some pdf_file) w))
    = events w ++ [TITLE; INTRO; request env (json_dumps env (payload t))] ++ evs /\
    http_calls w < http_calls (snd (script env (Some pdf_file) w)).
Proof.
  intros Hkey Hx Hlen.
  rewrite (@script_with_text pdf_file t w Hkey Hx), (long_text_is_enough _ Hlen).
  set (w0 := extend [TITLE; INTRO] w). unfold bind.
  pose proof (analyze_run_ends env t w0) as Hrun.
  destruct (analyze_text_with_gemini env t w0) as [[v|e] w2].
  - destruct (offline_display env v w2) as (evs & Hd & _). rewrite Hd.
    inversion Hrun; subst; simpl;
      eexists; (split; [repeat rewrite <- app_assoc; simpl; reflexivity|lia]).
  - inversion Hrun; subst; simpl;
      eexists; (split; [repeat rewrite <- app_assoc; simpl; reflexivity|lia]).
Qed.

(** X14. A text made of white space only, however long, is insufficient:
    the run ends with the warning and no request. *)
Theorem blank_text_is_insufficient (pdf_file : list byte) (t : pystr) (w : world) :
  API_KEY env <> [] ->
  extracted env pdf_file = Some t ->
  forallb is_space t = true ->
  script env (Some pdf_file) w
  = (Returned tt, extend [TITLE; INTRO; StWarning INSUFFICIENT_TEXT] w).
Proof.
  intros Hkey Hx Hblank.
  rewrite (@script_with_text pdf_file t w Hkey Hx).
  unfold enough_text. rewrite (strip_blank t Hblank). cbn [List.length Nat.ltb Nat.leb].
  rewrite andb_false_r. unfold st_warning. now rewrite emit_extend, extend_extend.
Qed.

End PipelineRuns.

Section PipelineOutcomes.

Variable env : collaborators.

Lemma analyze_first_answer (text : pystr) (w : world) (r : response) (v : value) :
  requests_post env (http_calls w) (json_dumps env (payload text)) = PostReturns r ->
  answers env r v ->
  analyze_text_with_gemini env text w
  = (Returned v, posted env (json_dumps env (payload text)) w).
Proof.
  intros Hp Hv. unfold analyze_text_with_gemini, range. cbn [seq].
  now rewrite for_each_cons, (@attempt_answers env _ 0 w r v Hp Hv).
Qed.

Lemma analyze_three_request_errors (text : pystr) (w : world) (e0 e1 e2 : exn) :
  let data := json_dumps env (payload text) in
  request_error env (requests_post env (http_calls w) data) = Some e0 ->
  request_error env (requests_post env (1 + http_calls w) data) = Some e1 ->
  request_error env (requests_post env (2 + http_calls w) data) = Some e2 ->
  analyze_text_with_gemini env text w
  = (Returned VNone,
     mkWorld (3 + http_calls w) (open_docs w)
             (events w ++ [request env data; Sleep 1; request env data; Sleep 2;
                           request env data; gave_up e2])).
Proof.
  intros data H0 H1 H2.
  unfold analyze_text_with_gemini, range. cbn [seq]. fold data.
  rewrite for_each_cons, (@retry_after_request_error env data 0 w e0 H0) by lia.
  rewrite for_each_cons.
  match goal with |- context [attempt env data 1 ?w1] =>
    rewrite (@retry_after_request_error env data 1 w1 e1 H1) by lia
  end.
  rewrite for_each_cons.
  match goal with |- context [attempt env data 2 ?w2] =>
    rewrite (@give_up_after_request_error env data w2 e2 H2)
  end.
  unfold said, posted. simpl. repeat rewrite <- app_assoc. reflexivity.
Qed.

(** X8. End to end.  For an upload whose text has more than 50 characters
    after [strip()] and a first response the client accepts, decoding to
    a well-formed, non-empty object, one run of the script shows the
    title, sends one request built from the extracted text, and displays
    the summary, the keywords and the details of that object, in this
    order; it makes one HTTP call and leaves no document open. *)
Theorem script_displays_the_answer
        (pdf_file : list byte) (t : pystr) (w : world) (r : response)
        (d : list (pystr * value)) :
  API_KEY env <> [] ->
  extracted env pdf_file = Some t ->
  50 < List.length (strip t) ->
  requests_post env (http_calls w) (json_dumps env (payload t)) = PostReturns r ->
  answers env r (VDict d) ->
  d <> [] ->
  well_formed d ->
  script env (Some pdf_file) w
  = (Returned tt,
     mkWorld (1 + http_calls w) (open_docs w)
             (events w
              ++ [TITLE; INTRO; request env (json_dumps env (payload t))]
              ++ summary_block d ++ keywords_block d ++ details_block env d)).
Proof.
  intros Hkey Hx Hlen Hp Hv Hne Hwf.
  rewrite (@script_with_text env pdf_file t w Hkey Hx), (long_text_is_enough _ Hlen).
  unfold bind.
  rewrite (@analyze_first_answer t (extend [TITLE; INTRO] w) r (VDict d) Hp Hv).
  unfold display. destruct d as [|kv d']; [contradiction|]. cbn [truthy].
  rewrite (@present_spec env (kv :: d') _ Hwf).
  unfold extend, posted. simpl. repeat rewrite <- app_assoc. reflexivity.
Qed.

(** X10. A falsy answer is silent.  When the accepted response decodes to
    a value Python takes for false (null, false, 0, an empty string, list
    or object), the client returns it without any message and line 118
    skips the display: after the request the run shows nothing at all,
    neither a result nor an error nor a warning. *)
Theorem falsy_answer_shows_nothing
        (pdf_file : list byte) (t : pystr) (w : world) (r : response) (v : value) :
  API_KEY env <> [] ->
  extracted env pdf_file = Some t ->
  50 < List.length (strip t) ->
  requests_post env (http_calls w) (json_dumps env (payload t)) = PostReturns r ->
  answers env r v ->
  truthy v = false ->
  script env (Some pdf_file) w
  = (Returned tt,
     mkWorld (1 + http_calls w) (open_docs w)
             (events w ++ [TITLE; INTRO; request env (json_dumps env (payload t))])).
Proof.
  intros Hkey Hx Hlen Hp Hv Hf.
  rewrite (@script_with_text env pdf_file t w Hkey Hx), (long_text_is_enough _ Hlen).
  unfold bind.
  rewrite (@analyze_first_answer t (extend [TITLE; INTRO] w) r v Hp Hv).
  unfold display. rewrite Hf.
  unfold extend, posted, ret. simpl. repeat rewrite <- app_assoc. reflexivity.
Qed.

(** X11. When all three attempts raise a RequestException, the run shows
    the client's message about the failed connection and nothing after
    it: no warning about the text, no result.  It has made three calls. *)
Theorem failed_analysis_shows_only_its_error
        (pdf_file : list byte) (t : pystr) (w : world) (e0 e1 e2 : exn) :
  let data := json_dumps env (payload t) in
  API_KEY env <> [] ->
  extracted env pdf_file = Some t ->
  50 < List.length (strip t) ->
  request_error env (requests_post env (http_calls w) data) = Some e0 ->
  request_error env (requests_post env (1 + http_calls w) data) = Some e1 ->
  request_error env (requests_post env (2 + http_calls w) data) = Some e2 ->
  script env (Some pdf_file) w
  = (Returned tt,
     mkWorld (3 + http_calls w) (open_docs w)
             (events w ++ [TITLE; INTRO; request env data; Sleep 1; request env data;
                           Sleep 2; request env data; gave_up e2])).
Proof.
  intros data Hkey Hx Hlen H0 H1 H2.
  rewrite (@script_with_text env pdf_file t w Hkey Hx), (long_text_is_enough _ Hlen).
  unfold bind.
  rewrite (@analyze_three_request_errors t (extend [TITLE; INTRO] w) e0 e1 e2 H0 H1 H2).
  unfold display. cbn [truthy].
  unfold extend, ret. simpl. repeat rewrite <- app_assoc. reflexivity.
Qed.

End PipelineOutcomes.

Lemma demo_answers_with (pdf : open_behaviour) (net : list post_behaviour) (inner : value) :
  Demo.loads (Demo.dumps (Demo.reply inner)) = Some (Demo.reply inner) ->
  Demo.loads (Demo.dumps inner) = Some inner ->
  Demo.dumps inner <> [] ->
  answers (Demo.env pdf net) (mkResponse 200 (Demo.dumps (Demo.reply inner))) inner.
Proof.
  intros Hb Hi Hne. split; [unfold success_status; simpl; lia|].
  exists (Demo.reply inner), (Demo.dumps inner).
  repeat split; try assumption.
Qed.

Lemma long_page_is_long :
  50 < List.length (strip (py "This page holds a sentence that is comfortably longer than fifty characters.")).
Proof. apply Nat.ltb_lt. vm_compute. reflexivity. Qed.

(** A one-page document and a good answer. *)
Lemma script_displays_the_answer_witness :
  let env := Demo.env (Opened [Demo.long_page]) [Demo.ok (Demo.reply Demo.analysis)] in
  let t := py "This page holds a sentence that is comfortably longer than fifty characters." in
  let d := [(py "summary", VStr (py "A short report."));
            (py "keywords", VList [VStr (py "alpha"); VStr (py "beta")]);
            (py "sentiment", VStr (py "Positive"));
            (py "language", VStr (py "English"))] in
  script env (Some []) initial_world
  = (Returned tt,
     mkWorld 1 0 ([] ++ [TITLE; INTRO; request env (json_dumps env (payload t))]
                     ++ summary_block d ++ keywords_block d ++ details_block env d)).
Proof.
  intros env t d.
  apply (@script_displays_the_answer env [] t initial_world
           (mkResponse 200 (Demo.dumps (Demo.reply Demo.analysis))) d).
  - discriminate.
  - reflexivity.
  - exact long_page_is_long.
  - reflexivity.
  - apply demo_answers. lia.
  - discriminate.
  - repeat split.
Defined.

(** The same document, and the answer [{}]. *)
Lemma falsy_answer_shows_nothing_witness :
  let env := Demo.env (Opened [Demo.long_page]) [Demo.ok (Demo.reply (VDict []))] in
  let t := py "This page holds a sentence that is comfortably longer than fifty characters." in
  script env (Some []) initial_world
  = (Returned tt,
     mkWorld 1 0 ([] ++ [TITLE; INTRO; request env (json_dumps env (payload t))])).
Proof.
  intros env t.
  apply (@falsy_answer_shows_nothing env [] t initial_world
           (mkResponse 200 (Demo.dumps (Demo.reply (VDict [])))) (VDict [])).
  - discriminate.
  - reflexivity.
  - exact long_page_is_long.
  - reflexivity.
  - apply demo_answers_with; try (vm_compute; reflexivity). vm_compute. discriminate.
  - reflexivity.
Defined.

(** The same document, and a network that is down. *)
Lemma failed_analysis_shows_only_its_error_witness :
  let env := Demo.env (Opened [Demo.long_page]) [] in
  let t := py "This page holds a sentence that is comfortably longer than fifty characters." in
  let req := request env (json_dumps env (payload t)) in
  script env (Some []) initial_world
  = (Returned tt,
     mkWorld 3 0 ([] ++ [TITLE; INTRO; req; Sleep 1; req; Sleep 2; req;
                         gave_up (mkExn ReqConnectionError (py "connection refused"))])).
Proof.
  intros env t req.
  apply (@failed_analysis_shows_only_its_error env [] t initial_world
           (mkExn ReqConnectionError (py "connection refused"))
           (mkExn ReqConnectionError (py "connection refused"))
           (mkExn ReqConnectionError (py "connection refused")));
    try reflexivity; [discriminate|exact long_page_is_long].
Defined.

(** The same document, whatever the network: here it is down. *)
Lemma enough_text_reaches_the_client_witness :
  let env := Demo.env (Opened [Demo.long_page]) [] in
  let t := py "This page holds a sentence that is comfortably longer than fifty characters." in
  exists evs,
    events (snd (script env (Some []) initial_world))
    = [] ++ [TITLE; INTRO; request env (json_dumps env (payload t))] ++ evs /\
    0 < http_calls (snd (script env (Some []) initial_world)).
Proof.
  intros env t.
  apply (@enough_text_reaches_the_client env [] t initial_world).
  - discriminate.
  - reflexivity.
  - exact long_page_is_long.
Defined.

(** A scanned document: sixty line feeds. *)
Lemma blank_text_is_insufficient_witness :
  let env := Demo.env (Opened [PageText (repeat NEWLINE 60)])
                      [Demo.ok (Demo.reply Demo.analysis)] in
  script env (Some []) initial_world
  = (Returned tt, extend [TITLE; INTRO; StWarning INSUFFICIENT_TEXT] initial_world).
Proof.
  intros env.
  apply (@blank_text_is_insufficient env [] (repeat NEWLINE 60) initial_world).
  - discriminate.
  - vm_compute. reflexivity.
  - vm_compute. reflexivity.
Defined.

(* ------------------------------------------------------------------ *)
(** ** Further properties of the display *)

Section DisplayEdges.

Variable env : collaborators.

(** X12. A truthy result that is no object (a list, a string, a number,
    [true]) has no [get]: the display announces the analysis as complete,
    shows the summary heading, and raises AttributeError. *)
Theorem display_of_non_object_raises (v : value) (w : world) :
  truthy v = true ->
  (forall d, v <> VDict d) ->
  display env v w
  = (Raised (mkExn AttributeError (py "object has no attribute 'get'")),
     extend ANNOUNCED w).
Proof.
  intros Ht Hv. unfold display. rewrite Ht.
  unfold present, bind, lift. rewrite !emit_extend, !extend_extend.
  destruct v; try reflexivity. now destruct (Hv d).
Qed.

(** X13. A sentiment that is no string (null, a number, a list) has no
    [lower]: everything up to the sentiment heading is displayed, then
    AttributeError is raised. *)
Theorem non_string_sentiment_raises (d : list (pystr * value)) (v : value) (w : world) :
  d <> [] ->
  field_ok is_str_list (py "keywords") d = true ->
  dict_lookup (py "sentiment") d = Some v ->
  is_str v = false ->
  display env (VDict d) w
  = (Raised (mkExn AttributeError (py "object has no attribute 'lower'")),
     extend (summary_block d ++ keywords_block d ++ removelast (details_block env d)) w).
Proof.
  intros Hne Hkey Hs Hv. unfold display.
  destruct d as [|kv d']; [contradiction|]. cbn [truthy].
  set (d := kv :: d') in *.
  unfold present, bind, lift, st_write.
  rewrite !emit_extend. cbn [dict_get]. rewrite emit_extend.
  rewrite (@present_keywords_spec d _ Hkey). rewrite !emit_extend.
  unfold present_sentiment, bind, lift. rewrite emit_extend. cbn [dict_get].
  rewrite Hs. destruct v; try discriminate; cbn [lower];
    rewrite !extend_extend; unfold summary_block, details_block; cbn [removelast];
    repeat rewrite <- app_assoc; reflexivity.
Qed.

(** X15. Keywords of another type.  A non-empty string is iterated
    character by character: one column and one item per character.  A
    non-zero number is truthy and has no length: after the heading,
    TypeError is raised. *)
Theorem keywords_of_another_type (d : list (pystr * value)) (w : world) :
  (forall c s,
      dict_lookup (py "keywords") d = Some (VStr (c :: s)) ->
      present_keywords (VDict d) w
      = (Returned tt,
         extend (KEY_TOPICS :: StColumns (List.length (c :: s))
                            :: keyword_items 0 (map (fun a => VStr [a]) (c :: s))) w))
  /\
  (forall z,
      dict_lookup (py "keywords") d = Some (VInt z) ->
      z <> 0%Z ->
      present_keywords (VDict d) w
      = (Raised (mkExn TypeError (py "object has no len()")), extend [KEY_TOPICS] w)).
Proof.
  split.
  - intros c s H. unfold present_keywords, bind, lift. rewrite emit_extend.
    cbn [dict_get]. rewrite H. cbn [truthy py_len py_iter].
    rewrite emit_extend, show_keywords_spec, !extend_extend. reflexivity.
  - intros z H Hz. unfold present_keywords, bind, lift. rewrite emit_extend.
    cbn [dict_get]. rewrite H. cbn [truthy].
    destruct (Z.eqb_spec z 0); [contradiction|]. reflexivity.
Qed.

(** X16. Missing fields get their defaults.  For a well-formed object
    with no summary, no language and no sentiment, the display shows
    "No summary available.", the language N/A and the sentiment N/A in
    orange; the keywords are displayed as they are. *)
Theorem missing_fields_get_defaults (d : list (pystr * value)) (w : world) :
  d <> [] ->
  well_formed d ->
  dict_lookup (py "summary") d = None ->
  dict_lookup (py "language") d = None ->
  dict_lookup (py "sentiment") d = None ->
  display env (VDict d) w
  = (Returned tt,
     extend (ANNOUNCED
             ++ [StWrite (VStr (py "No summary available.")) false]
             ++ keywords_block d
             ++ [StDivider; StColumns 2;
                 InColumn 0 (StSubheader ([128483; 65039]%N ++ py " Language"));
                 InColumn 0 (StWrite (VStr (py "**N/A**")) false);
                 InColumn 1 (StSubheader (128515%N :: py " Sentiment"));
                 InColumn 1 (StWrite (VStr (py "**<p style='color:orange;'>N/A</p>**"))
                                     true)]) w).
Proof.
  intros Hne Hwf Hsum Hlang Hsen. unfold display.
  destruct d as [|kv d']; [contradiction|]. cbn [truthy].
  rewrite (@present_spec env (kv :: d') w Hwf).
  unfold summary_block, details_block, sentiment_of, sentiment_cue.
  rewrite Hsum, Hlang, Hsen. reflexivity.
Qed.

End DisplayEdges.

(** A list as the result; a null sentiment; keywords given as one string;
    a result with keywords only. *)
Lemma display_of_non_object_raises_witness :
  let env := Demo.env (OpenRaises Demo.corrupt) [] in
  display env (VList [VStr (py "alpha")]) initial_world
  = (Raised (mkExn AttributeError (py "object has no attribute 'get'")),
     extend ANNOUNCED initial_world).
Proof.
  intros env.
  apply (@display_of_non_object_raises env (VList [VStr (py "alpha")]) initial_world).
  - reflexivity.
  - discriminate.
Defined.

Lemma non_string_sentiment_raises_witness :
  let env := Demo.env (OpenRaises Demo.corrupt) [] in
  let d := [(py "summary", VStr (py "A short report.")); (py "sentiment", VNone)] in
  display env (VDict d) initial_world
  = (Raised (mkExn AttributeError (py "object has no attribute 'lower'")),
     extend (summary_block d ++ keywords_block d ++ removelast (details_block env d))
            initial_world).
Proof.
  intros env d.
  apply (@non_string_sentiment_raises env d VNone initial_world);
    try reflexivity. discriminate.
Defined.

Lemma keywords_of_another_type_witness :
  let d := [(py "keywords", VStr (py "ai"))] in
  present_keywords (VDict d) initial_world
  = (Returned tt,
     extend [KEY_TOPICS; StColumns 2;
             InColumn 0 (StInfo (VStr (py "a"))); InColumn 1 (StInfo (VStr (py "i")))]
            initial_world)
  /\
  present_keywords (VDict [(py "keywords", VInt 7)]) initial_world
  = (Raised (mkExn TypeError (py "object has no len()")), extend [KEY_TOPICS] initial_world).
Proof.
  intros d. split.
  - exact (proj1 (keywords_of_another_type d initial_world) _ _ eq_refl).
  - refine (proj2 (keywords_of_another_type [(py "keywords", VInt 7)] initial_world)
                  7%Z eq_refl _).
    discriminate.
Defined.

Lemma missing_fields_get_defaults_witness :
  let env := Demo.env (OpenRaises Demo.corrupt) [] in
  let d := [(py "keywords", VList [VStr (py "alpha")])] in
  fst (display env (VDict d) initial_world) = Returned tt /\
  In (StWrite (VStr (py "No summary available.")) false)
     (events (snd (display env (VDict d) initial_world))).
Proof.
  intros env d.
  rewrite (@missing_fields_get_defaults env d initial_world);
    try reflexivity; [|discriminate|repeat split].
  split; [reflexivity|]. simpl. tauto.
Defined.

(* ------------------------------------------------------------------ *)
(** ** Further properties of the payload *)

(** X17. The size of the prompt.  A text of at most 15,000 characters is
    sent whole: the prompt is the instruction (223 characters with its
    opening quote), the text, and the closing quote.  For every text the
    prompt has 224 characters more than the text or than 15,000,
    whichever is less; so no prompt is longer than 15,224 characters.
    Truncating twice changes nothing. *)
Theorem prompt_size (text : pystr) :
  (List.length text <= 15000 ->
   payload_prompt (payload text) = Returned (VStr (PROMPT_HEAD ++ text ++ [QUOTE])))
  /\
  List.length (prompt (truncated_text text)) = 224 + Nat.min 15000 (List.length text)
  /\
  List.length (prompt (truncated_text text)) <= 15224
  /\
  payload (truncated_text text) = payload text.
Proof.
  assert (Hlen : List.length (prompt (truncated_text text))
                 = 224 + Nat.min 15000 (List.length text)).
  { unfold prompt, truncated_text.
    rewrite !length_app, length_firstn.
    change (List.length [NEWLINE; NEWLINE]) with 2.
    change (List.length [QUOTE]) with 1.
    change (List.length (py "Text: ")) with 6.
    match goal with |- List.length ?h + _ = _ =>
      replace (List.length h) with 214 by (vm_compute; reflexivity)
    end.
    lia. }
  split; [|split; [|split]].
  - intros H. rewrite payload_prompt_spec. unfold truncated_text.
    now rewrite firstn_all2.
  - exact Hlen.
  - rewrite Hlen. change 15224 with (224 + 15000).
    apply Nat.add_le_mono_l, Nat.le_min_l.
  - unfold payload, truncated_text. now rewrite firstn_firstn, Nat.min_id.
Qed.

(** A short text. *)
Lemma prompt_size_witness :
  payload_prompt (payload (py "hello"))
  = Returned (VStr (PROMPT_HEAD ++ py "hello" ++ [QUOTE])).
Proof.
  apply (proj1 (prompt_size (py "hello"))).
  apply Nat.leb_le. vm_compute. reflexivity.
Defined.
